(** * snow9s: the dashboard core (table view, input modes, refresh loop)

  A shallow embedding of
  - [internal/config/config.go]  ([Config], [MergeOverrides], [Validate],
    [loadEnvOverrides]),
  - [internal/ui/table.go]       ([DataTable] and its filter),
  - [internal/ui/footer.go]      (the two texts of the footer),
  - the application file of package [ui] ([App], its key handlers, the
    command dispatcher, the refresh loop and the two helpers of the
    detail pane),
  - [fallback] of [internal/snowflake/spcs.go],
  followed by the properties of the specification that concern them and
  by further properties of the same functions.

  Go [string]s are byte strings and are modelled by [string] (a list of
  8-bit [ascii]); Go [int]s are modelled by [Z], with the 64-bit
  wrap-around written out where the code adds or multiplies. *)

From Stdlib Require Import ZArith Lia List String Ascii Bool DecimalString.
From stdpp Require Import base list.
Import ListNotations.

Open Scope string_scope.
Open Scope Z_scope.

(** ** Go's [int] *)

Module GoInt.

(** Two's complement wrap-around of a 64-bit [int]. *)
Definition wrap (z : Z) : Z := (z + 2 ^ 63) mod 2 ^ 64 - 2 ^ 63.

Definition add (x y : Z) : Z := wrap (x + y).
Definition mul (x y : Z) : Z := wrap (x * y).

(** [len(s)] of a slice; a slice length always fits an [int]. *)
Definition len {A} (l : list A) : Z := Z.of_nat (length l).

(** [fmt.Sprintf("%d", z)] *)
Definition itoa (z : Z) : string := NilEmpty.string_of_int (Z.to_int z).

End GoInt.

(** ** The functions of Go's [strings] package that the code calls

  The standard library is not part of the repository.  Its functions are
  modelled on bytes.  [ToLower], [TrimSpace] and [Fields] each have an
  ASCII path, written out below, and hand any input holding a byte of
  [0x80] or more to the Unicode tables; those are kept as parameters. *)

Class Unicode := {
  (* strings.Map(unicode.ToLower, s) *)
  Map_ToLower : string -> string;
  (* strings.TrimFunc(s, unicode.IsSpace) *)
  TrimFunc_IsSpace : string -> string;
  (* strings.TrimRightFunc(s, unicode.IsSpace) *)
  TrimRightFunc_IsSpace : string -> string;
  (* strings.FieldsFunc(s, unicode.IsSpace) *)
  FieldsFunc_IsSpace : string -> list string
}.

Module Strings.

Definition byte (c : ascii) : Z := Z.of_N (N_of_ascii c).

(** [c >= utf8.RuneSelf] *)
Definition nonASCII (c : ascii) : bool := 128 <=? byte c.

(** The table [asciiSpace]: tab, line feed, vertical tab, form feed,
    carriage return and space. *)
Definition asciiSpace (c : ascii) : bool :=
  let b := byte c in
  (b =? 9) || (b =? 10) || (b =? 11) || (b =? 12) || (b =? 13) || (b =? 32).

Fixpoint isASCII (s : string) : bool :=
  match s with
  | EmptyString => true
  | String c s' => negb (nonASCII c) && isASCII s'
  end.

Definition lowerByte (c : ascii) : ascii :=
  let b := byte c in
  if (65 <=? b) && (b <=? 90) then ascii_of_N (Z.to_N (b + 32)) else c.

Fixpoint mapBytes (f : ascii -> ascii) (s : string) : string :=
  match s with
  | EmptyString => EmptyString
  | String c s' => String (f c) (mapBytes f s')
  end.

Fixpoint rev (s : string) : string :=
  match s with
  | EmptyString => EmptyString
  | String c s' => rev s' ++ String c EmptyString
  end.

(** [strings.Index]: the position of the first occurrence, or -1. *)
Definition Index (s substr : string) : Z :=
  match String.index 0 substr s with
  | Some n => Z.of_nat n
  | None => -1
  end.

Definition Contains (s substr : string) : bool := 0 <=? Index s substr.

Definition HasPrefix (s prefix : string) : bool := String.prefix prefix s.

Definition Join (elems : list string) (sep : string) : string :=
  String.concat sep elems.

(** The ASCII path of [Fields]: [cur] is the field being read. *)
Fixpoint asciiFields (s cur : string) : list string :=
  match s with
  | EmptyString => if String.eqb cur "" then [] else [cur]
  | String c s' =>
      if asciiSpace c then
        if String.eqb cur "" then asciiFields s' ""
        else cur :: asciiFields s' ""
      else asciiFields s' (cur ++ String c "")
  end.

(** The two scans of [TrimSpace].  Each stops at the first byte that is
    not an ASCII space; [inr] reports a byte of [0x80] or more, with
    what is left of the string at that point. *)
Fixpoint skipSpace (s : string) : string + string :=
  match s with
  | EmptyString => inl EmptyString
  | String c s' =>
      if nonASCII c then inr s
      else if asciiSpace c then skipSpace s'
      else inl s
  end.

Section WithUnicode.
Context {U : Unicode}.

Definition ToLower (s : string) : string :=
  if isASCII s then mapBytes lowerByte s else Map_ToLower s.

(** The first scan runs from the front, the second from the back of what
    the first one left. *)
Definition TrimSpace (s : string) : string :=
  match skipSpace s with
  | inr rest => TrimFunc_IsSpace rest
  | inl rest =>
      match skipSpace (rev rest) with
      | inr tser => TrimRightFunc_IsSpace (rev tser)
      | inl tser => rev tser
      end
  end.

Definition Fields (s : string) : list string :=
  if isASCII s then asciiFields s "" else FieldsFunc_IsSpace s.

End WithUnicode.

End Strings.

(** ** [internal/config/config.go] *)

Module Config.

Record Config := {
  Account : string;
  User : string;
  Password : string;
  PrivateKeyPath : string;
  Database : string;
  Schema : string;
  Warehouse : string;
  Context_ : string;
  Debug : bool
}.

(** [Config{}] *)
Definition zero : Config :=
  {| Account := ""; User := ""; Password := ""; PrivateKeyPath := "";
     Database := ""; Schema := ""; Warehouse := ""; Context_ := "";
     Debug := false |}.

(** [result := base], then one [if overrides.F != "" { result.F =
    overrides.F }] per text field and [if overrides.Debug { result.Debug
    = true }]. *)
Definition MergeOverrides (base overrides : Config) : Config :=
  let pick (b o : string) := if negb (String.eqb o "") then o else b in
  {| Account := pick (Account base) (Account overrides);
     User := pick (User base) (User overrides);
     Password := pick (Password base) (Password overrides);
     PrivateKeyPath := pick (PrivateKeyPath base) (PrivateKeyPath overrides);
     Database := pick (Database base) (Database overrides);
     Schema := pick (Schema base) (Schema overrides);
     Warehouse := pick (Warehouse base) (Warehouse overrides);
     Context_ := pick (Context_ base) (Context_ overrides);
     Debug := if Debug overrides then true else Debug base |}.

(** [c.Schema = s] *)
Definition withSchema (s : string) (c : Config) : Config :=
  {| Account := Account c; User := User c; Password := Password c;
     PrivateKeyPath := PrivateKeyPath c; Database := Database c;
     Schema := s; Warehouse := Warehouse c; Context_ := Context_ c;
     Debug := Debug c |}.

End Config.

(** ** The part of [tview.Table] that the code uses

    The widget keeps a grid of cells and a selected position.  Cells are
    modelled by their text; colours and alignment are not. *)

Module Tview.

Record Table := {
  cells : list (list string);
  selectedRow : Z;
  selectedColumn : Z;
  title : string
}.

Definition NewTable : Table :=
  {| cells := []; selectedRow := 0; selectedColumn := 0; title := "" |}.

Definition Clear (t : Table) : Table :=
  {| cells := []; selectedRow := selectedRow t;
     selectedColumn := selectedColumn t; title := title t |}.

(** [SetCell] grows the grid up to the row and the row up to the column,
    then stores the cell. *)
Definition SetCell (row column : nat) (text : string) (t : Table) : Table :=
  let grid := (cells t ++ replicate (S row - length (cells t)) [])%list in
  let line := default [] (grid !! row) in
  let line := (line ++ replicate (S column - length line) "")%list in
  {| cells := <[row := <[column := text]> line]> grid;
     selectedRow := selectedRow t;
     selectedColumn := selectedColumn t; title := title t |}.

Definition GetRowCount (t : Table) : Z := GoInt.len (cells t).

Definition GetSelection (t : Table) : Z * Z :=
  (selectedRow t, selectedColumn t).

Definition Select (row column : Z) (t : Table) : Table :=
  {| cells := cells t; selectedRow := row; selectedColumn := column;
     title := title t |}.

Definition SetTitle (s : string) (t : Table) : Table :=
  {| cells := cells t; selectedRow := selectedRow t;
     selectedColumn := selectedColumn t; title := s |}.

End Tview.

(** ** [internal/ui/table.go]: [DataTable] *)

Module Table.
Import Strings.

Record TableRow := { Cells : list string }.

Record DataTable := {
  tbl : Tview.Table;
  headers : list string;
  rows : list TableRow;
  filtered : list TableRow;
  filter : string;
  statusColumn : Z
}.

Definition NewDataTable : DataTable :=
  {| tbl := Tview.NewTable; headers := []; rows := []; filtered := [];
     filter := ""; statusColumn := -1 |}.

Definition with_tbl (x : Tview.Table) (t : DataTable) : DataTable :=
  {| tbl := x; headers := headers t; rows := rows t;
     filtered := filtered t; filter := filter t;
     statusColumn := statusColumn t |}.

Definition with_filtered (x : list TableRow) (t : DataTable) : DataTable :=
  {| tbl := tbl t; headers := headers t; rows := rows t;
     filtered := x; filter := filter t; statusColumn := statusColumn t |}.

(** [for c, v := range values { t.SetCell(row, c, " v ") }] *)
Fixpoint setLine (row c : nat) (values : list string) (t : Tview.Table)
  : Tview.Table :=
  match values with
  | [] => t
  | v :: rest =>
      setLine row (S c) rest (Tview.SetCell row c (" " ++ v ++ " ") t)
  end.

(** [for r, row := range rows { rowIdx := r + 1; ... }] *)
Fixpoint setLines (r : nat) (rs : list TableRow) (t : Tview.Table)
  : Tview.Table :=
  match rs with
  | [] => t
  | row :: rest => setLines (S r) rest (setLine (S r) 0 (Cells row) t)
  end.

Definition render (t : DataTable) : DataTable :=
  let tv := Tview.Clear (tbl t) in
  let tv := setLine 0 0 (headers t) tv in
  let tv := setLines 0 (filtered t) tv in
  let tv := if 0 <? GoInt.len (filtered t) then Tview.Select 1 0 tv else tv in
  with_tbl tv t.

Definition SetStatusColumn (idx : Z) (t : DataTable) : DataTable :=
  render {| tbl := tbl t; headers := headers t; rows := rows t;
            filtered := filtered t; filter := filter t;
            statusColumn := idx |}.

Section WithUnicode.
Context {U : Unicode}.

(** The test of the loop of [applyFilter], for the filter already trimmed
    and lower-cased. *)
Definition rowMatches (flt : string) (row : TableRow) : bool :=
  if String.eqb flt "" then true
  else Contains (ToLower (Join (Cells row) " ")) flt.

Definition applyFilter (t : DataTable) : DataTable :=
  let flt := ToLower (TrimSpace (filter t)) in
  let kept := List.filter (rowMatches flt) (rows t) in
  render (with_filtered kept t).

Definition SetData (hs : list string) (rs : list TableRow) (t : DataTable)
  : DataTable :=
  applyFilter {| tbl := tbl t; headers := hs; rows := rs;
                 filtered := filtered t; filter := filter t;
                 statusColumn := statusColumn t |}.

Definition SetFilter (f : string) (t : DataTable) : DataTable :=
  applyFilter {| tbl := tbl t; headers := headers t; rows := rows t;
                 filtered := filtered t; filter := f;
                 statusColumn := statusColumn t |}.

End WithUnicode.

Definition SelectionInfo (t : DataTable) : string :=
  let total := GoInt.len (filtered t) in
  let row := Tview.selectedRow (tbl t) in
  if total =? 0 then "0/0"
  else
    let row := if row <=? 0 then 1 else row in
    GoInt.itoa row ++ "/" ++ GoInt.itoa total.

Definition SelectedRow (t : DataTable) : option TableRow :=
  if GoInt.len (filtered t) =? 0 then None
  else
    let row := Tview.selectedRow (tbl t) in
    let row := if row <=? 0 then 1 else row in
    let index := row - 1 in
    if (index <? 0) || (GoInt.len (filtered t) <=? index) then None
    else filtered t !! Z.to_nat index.

Definition Headers (t : DataTable) : list string := headers t.

(** Wrappers for the methods of the embedded [*tview.Table]. *)
Definition GetRowCount (t : DataTable) : Z := Tview.GetRowCount (tbl t).
Definition GetSelection (t : DataTable) : Z * Z := Tview.GetSelection (tbl t).
Definition Select (row column : Z) (t : DataTable) : DataTable :=
  with_tbl (Tview.Select row column (tbl t)) t.
Definition SetTitle (s : string) (t : DataTable) : DataTable :=
  with_tbl (Tview.SetTitle s (tbl t)) t.

(** A row as [loadViewData] builds them has at least one cell. *)
Definition hasCells (r : TableRow) : Prop := Cells r <> [].

(** The grid shows the header row and one row per filtered row, as it
    does after [render] on a table with headers. *)
Definition rendered (t : DataTable) : Prop :=
  GetRowCount t = GoInt.len (filtered t) + 1.

End Table.

(** ** The application: [App], its handlers and the refresh loop *)

Module UI.
Import Strings Table.

Inductive viewKind := viewServices | viewPools | viewRepos | viewInstances.

(** [string(view)] *)
Definition viewName (v : viewKind) : string :=
  match v with
  | viewServices => "Services"
  | viewPools => "Pools"
  | viewRepos => "Repos"
  | viewInstances => "Instances"
  end.

Definition viewKind_eqb (v w : viewKind) : bool :=
  match v, w with
  | viewServices, viewServices | viewPools, viewPools
  | viewRepos, viewRepos | viewInstances, viewInstances => true
  | _, _ => false
  end.

Inductive InputMode := inputNone | inputFilter | inputCommand.

Definition InputMode_eqb (m n : InputMode) : bool :=
  match m, n with
  | inputNone, inputNone | inputFilter, inputFilter
  | inputCommand, inputCommand => true
  | _, _ => false
  end.

Module ViewData.
Record viewData := {
  headers : list string;
  rows : list TableRow;
  statusColumn : Z;
  warning : string
}.
(** [viewData{}] *)
Definition zero : viewData :=
  {| headers := []; rows := []; statusColumn := 0; warning := "" |}.
End ViewData.
Import ViewData(viewData).

(** The keys that reach [completeInput]. *)
Inductive Key := KeyEnter | KeyEsc | KeyTab | KeyBacktab.

Definition isEnter (k : Key) : bool :=
  match k with KeyEnter => true | _ => false end.
Definition isEsc (k : Key) : bool :=
  match k with KeyEsc => true | _ => false end.

(** The three backgrounds [setError] chooses from. *)
Inductive Color := StyleBackground | StyleRowAltBg | ColorRed.

Record TextView := { Text : string; BackgroundColor : Color }.

Record InputField := { text : string; label : string; disabled : bool }.

(** [internal/ui/footer.go]: the two texts the footer keeps; what it
    shows is [hints], followed by [status] when that is not empty. *)
Record Footer := { hints : string; status : string }.

Inductive Focus := FocusNone | FocusTable | FocusInput.

(** What the data provider answers to one listing call, already turned
    into rows (the conversion from the provider's records builds one
    [TableRow] per record and cannot fail). *)
Inductive Reply :=
| Listed (rs : list TableRow)
| Failed (err : string).

(** The closures handed to [QueueUpdateDraw]. *)
Inductive Update :=
| UpdSetError (msg : string)
| UpdFetched (data : viewData) (err : option string)
| UpdFooterDefault
| UpdSpinner (frame : string).

(** The goroutines started with [go], each at its next step:
    - [GoFetchCurrentView]: [go a.fetchCurrentView(...)] of [setView],
      before the call;
    - [GoFetch]: the closure of [fetchCurrentView], before
      [a.setLoading(true)];
    - [GoLoadViewData v service]: the same closure, inside
      [a.loadViewData], which read [a.view = v] and
      [a.activeService = service] when it started;
    - [GoSpin idx]: [a.spin()] at the head of its loop. *)
Inductive Goroutine :=
| GoFetchCurrentView
| GoFetch
| GoLoadViewData (v : viewKind) (service : string)
| GoSpin (idx : nat).

(** The struct [App].  Of [a.app], the [tview.Application], the model
    keeps the queue of closures and the focused widget; [goroutines] is
    the Go runtime's side.  Of the header it keeps the view tag (the
    banner text carries the wall clock), of [a.spcs] the configuration
    its queries read.  Styles, the ticker, the cancel function and the
    debug and detail panes are left out: none of the functions below
    reads them.  [detailVisible] is read below and written only by
    [openDetail] and [closeDetail]. *)
Record App := {
  updates : list Update;
  focus : Focus;
  goroutines : list Goroutine;
  header : string;
  footer : Footer;
  errorView : TextView;
  table : DataTable;
  filterField : InputField;
  spcs : Config.Config;
  cfg : Config.Config;
  loading : bool;
  helpVisible : bool;
  bottomPages : option string;
  detailVisible : bool;
  view : viewKind;
  activeService : string;
  inputMode : InputMode
}.

Definition with_updates x a :=
  Build_App x (focus a) (goroutines a) (header a) (footer a) (errorView a)
    (table a) (filterField a) (spcs a) (cfg a) (loading a) (helpVisible a)
    (bottomPages a) (detailVisible a) (view a) (activeService a) (inputMode a).
Definition with_focus x a :=
  Build_App (updates a) x (goroutines a) (header a) (footer a) (errorView a)
    (table a) (filterField a) (spcs a) (cfg a) (loading a) (helpVisible a)
    (bottomPages a) (detailVisible a) (view a) (activeService a) (inputMode a).
Definition with_goroutines x a :=
  Build_App (updates a) (focus a) x (header a) (footer a) (errorView a)
    (table a) (filterField a) (spcs a) (cfg a) (loading a) (helpVisible a)
    (bottomPages a) (detailVisible a) (view a) (activeService a) (inputMode a).
Definition with_header x a :=
  Build_App (updates a) (focus a) (goroutines a) x (footer a) (errorView a)
    (table a) (filterField a) (spcs a) (cfg a) (loading a) (helpVisible a)
    (bottomPages a) (detailVisible a) (view a) (activeService a) (inputMode a).
Definition with_footer x a :=
  Build_App (updates a) (focus a) (goroutines a) (header a) x (errorView a)
    (table a) (filterField a) (spcs a) (cfg a) (loading a) (helpVisible a)
    (bottomPages a) (detailVisible a) (view a) (activeService a) (inputMode a).
Definition with_errorView x a :=
  Build_App (updates a) (focus a) (goroutines a) (header a) (footer a) x
    (table a) (filterField a) (spcs a) (cfg a) (loading a) (helpVisible a)
    (bottomPages a) (detailVisible a) (view a) (activeService a) (inputMode a).
Definition with_table x a :=
  Build_App (updates a) (focus a) (goroutines a) (header a) (footer a)
    (errorView a) x (filterField a) (spcs a) (cfg a) (loading a)
    (helpVisible a) (bottomPages a) (detailVisible a) (view a)
    (activeService a) (inputMode a).
Definition with_filterField x a :=
  Build_App (updates a) (focus a) (goroutines a) (header a) (footer a)
    (errorView a) (table a) x (spcs a) (cfg a) (loading a) (helpVisible a)
    (bottomPages a) (detailVisible a) (view a) (activeService a) (inputMode a).
Definition with_spcs x a :=
  Build_App (updates a) (focus a) (goroutines a) (header a) (footer a)
    (errorView a) (table a) (filterField a) x (cfg a) (loading a)
    (helpVisible a) (bottomPages a) (detailVisible a) (view a)
    (activeService a) (inputMode a).
Definition with_cfg x a :=
  Build_App (updates a) (focus a) (goroutines a) (header a) (footer a)
    (errorView a) (table a) (filterField a) (spcs a) x (loading a)
    (helpVisible a) (bottomPages a) (detailVisible a) (view a)
    (activeService a) (inputMode a).
Definition with_loading x a :=
  Build_App (updates a) (focus a) (goroutines a) (header a) (footer a)
    (errorView a) (table a) (filterField a) (spcs a) (cfg a) x
    (helpVisible a) (bottomPages a) (detailVisible a) (view a)
    (activeService a) (inputMode a).
Definition with_helpVisible x a :=
  Build_App (updates a) (focus a) (goroutines a) (header a) (footer a)
    (errorView a) (table a) (filterField a) (spcs a) (cfg a) (loading a) x
    (bottomPages a) (detailVisible a) (view a) (activeService a) (inputMode a).
Definition with_bottomPages x a :=
  Build_App (updates a) (focus a) (goroutines a) (header a) (footer a)
    (errorView a) (table a) (filterField a) (spcs a) (cfg a) (loading a)
    (helpVisible a) x (detailVisible a) (view a) (activeService a)
    (inputMode a).
Definition with_view x a :=
  Build_App (updates a) (focus a) (goroutines a) (header a) (footer a)
    (errorView a) (table a) (filterField a) (spcs a) (cfg a) (loading a)
    (helpVisible a) (bottomPages a) (detailVisible a) x (activeService a)
    (inputMode a).
Definition with_activeService x a :=
  Build_App (updates a) (focus a) (goroutines a) (header a) (footer a)
    (errorView a) (table a) (filterField a) (spcs a) (cfg a) (loading a)
    (helpVisible a) (bottomPages a) (detailVisible a) (view a) x
    (inputMode a).
Definition with_inputMode x a :=
  Build_App (updates a) (focus a) (goroutines a) (header a) (footer a)
    (errorView a) (table a) (filterField a) (spcs a) (cfg a) (loading a)
    (helpVisible a) (bottomPages a) (detailVisible a) (view a)
    (activeService a) x.

(** [a.app.QueueUpdateDraw(f)], [go f()] and [a.app.SetFocus(w)] *)
Definition QueueUpdateDraw (u : Update) (a : App) : App :=
  with_updates (updates a ++ [u])%list a.
Definition go (g : Goroutine) (a : App) : App :=
  with_goroutines (goroutines a ++ [g])%list a.
Definition SetFocus (w : Focus) (a : App) : App := with_focus w a.

Definition SetHints (hs : list string) (f : Footer) : Footer :=
  {| hints := Join hs "  "; status := status f |}.

Definition defaultKeyHints : list string :=
  ["j/k/↓/↑ Move"; "g/G Top/Bottom"; "ctrl+d/ctrl+u Page"; "s/p/r Views";
   "i Instances"; "b Back"; "enter Details"; "/ Filter"; ": Cmd";
   "ctrl+r Refresh"; "q Quit"].

(** [a.bottomPages.SwitchToPage(p)], guarded by [a.bottomPages != nil] *)
Definition SwitchToPage (p : string) (a : App) : App :=
  match bottomPages a with
  | Some _ => with_bottomPages (Some p) a
  | None => a
  end.

Section WithUnicode.
Context {U : Unicode}.

Definition SetStatus (s : string) (f : Footer) : Footer :=
  {| hints := hints f; status := TrimSpace s |}.

Definition updateFooterStatus (a : App) : App :=
  let filterText := text (filterField a) in
  let parts := [SelectionInfo (table a)] in
  let parts :=
    if InputMode_eqb (inputMode a) inputFilter
       && negb (String.eqb (TrimSpace filterText) "")
    then (parts ++ [("filter: " ++ filterText)%string])%list
    else parts in
  with_footer (SetStatus (Join parts "  ") (footer a)) a.

Definition setError (msg : string) (a : App) : App :=
  let bg :=
    if negb (String.eqb msg "") then
      if HasPrefix msg "No items" || HasPrefix msg "No services"
      then StyleRowAltBg else ColorRed
    else StyleBackground in
  with_errorView {| Text := msg; BackgroundColor := bg |} a.

Definition showError (msg : string) (a : App) : App :=
  QueueUpdateDraw (UpdSetError msg) a.

Definition setLoading (b : bool) (a : App) : App :=
  let changed := negb (Bool.eqb (loading a) b) in
  let a := with_loading b a in
  if negb changed then a
  else if b then go (GoSpin 0) a
  else QueueUpdateDraw UpdFooterDefault a.

(** The caller's side of [fetchCurrentView]: the two guards, then the
    [go] statement.  The closure it starts is [GoFetch]. *)
Definition fetchCurrentView (a : App) : App :=
  if negb (InputMode_eqb (inputMode a) inputNone) || detailVisible a then a
  else if loading a then a
  else go GoFetch a.

(** The callback installed with [filterField.SetChangedFunc]. *)
Definition changed (txt : string) (a : App) : App :=
  if negb (InputMode_eqb (inputMode a) inputFilter) then
    with_footer
      (SetStatus (SelectionInfo (table a) ++ "  cmd: " ++ txt) (footer a)) a
  else
    let a := with_table (SetFilter txt (table a)) a in
    with_footer
      (SetStatus (SelectionInfo (table a) ++ "  filter: " ++ txt) (footer a))
      a.

(** [a.filterField.SetText(s)]: the widget stores the text and calls the
    callback. *)
Definition filterField_SetText (s : string) (a : App) : App :=
  let f := filterField a in
  changed s
    (with_filterField {| text := s; label := label f; disabled := disabled f |}
       a).

Definition filterField_SetDisabled (b : bool) (a : App) : App :=
  let f := filterField a in
  with_filterField {| text := text f; label := label f; disabled := b |} a.

Definition filterField_SetLabel (s : string) (a : App) : App :=
  let f := filterField a in
  with_filterField {| text := text f; label := s; disabled := disabled f |} a.

Definition move (delta : Z) (a : App) : App :=
  let '(row, col) := GetSelection (table a) in
  let newRow := GoInt.add row delta in
  let newRow := if newRow <? 1 then 1 else newRow in
  let newRow :=
    if GetRowCount (table a) <=? newRow then GetRowCount (table a) - 1
    else newRow in
  updateFooterStatus (with_table (Select newRow col (table a)) a).

Definition page (direction : Z) (a : App) : App :=
  let total := GetRowCount (table a) in
  if total <=? 1 then a
  else
    let '(row, col) := GetSelection (table a) in
    let pageSize := total / 2 in
    let newRow := GoInt.add row (GoInt.mul pageSize direction) in
    let newRow := if newRow <? 1 then 1 else newRow in
    let newRow := if total <=? newRow then total - 1 else newRow in
    updateFooterStatus (with_table (Select newRow col (table a)) a).

Definition selectRow (row : Z) (a : App) : App :=
  let row := if row <? 1 then 1 else row in
  let row :=
    if GetRowCount (table a) <=? row then GetRowCount (table a) - 1
    else row in
  updateFooterStatus (with_table (Select row 0 (table a)) a).

(** The selection keys of [handleKey]: [j]/[k] and the arrows, Ctrl+D and
    Ctrl+U, [g] and [G]. *)
Inductive Mutation :=
| MoveBy (delta : Z)
| PageBy (direction : Z)
| JumpTop
| JumpBottom.

Definition mutate (m : Mutation) (a : App) : App :=
  match m with
  | MoveBy delta => move delta a
  | PageBy direction => page direction a
  | JumpTop => selectRow 1 a
  | JumpBottom => selectRow (GetRowCount (table a) - 1) a
  end.

(** The row [GetSelection] reports. *)
Definition selected (a : App) : Z := Tview.selectedRow (tbl (table a)).

Definition activateInput (mode : InputMode) (lbl : string) (a : App) : App :=
  let a := with_inputMode mode a in
  let a := filterField_SetDisabled false a in
  let a := filterField_SetLabel lbl a in
  let a := filterField_SetText "" a in
  let a := SetFocus FocusInput a in
  let a := SwitchToPage "input" a in
  if InputMode_eqb mode inputCommand then
    with_footer (SetHints ["enter Run"; "esc Cancel"] (footer a)) a
  else
    with_footer (SetHints ["esc Clear"; "enter Done"] (footer a)) a.

Definition setView (v : viewKind) (a : App) : App :=
  if viewKind_eqb v viewInstances && String.eqb (activeService a) "" then
    showError "Select a service first to view instances" a
  else
    let a := with_view v a in
    let a := with_header (viewName v) a in
    let ttl :=
      if viewKind_eqb v viewInstances
         && negb (String.eqb (activeService a) "")
      then " " ++ viewName v ++ " (" ++ activeService a ++ ") "
      else " " ++ viewName v ++ " " in
    let a := with_table (SetTitle ttl (table a)) a in
    let a := with_table (SetFilter "" (table a)) a in
    let a := filterField_SetText "" a in
    go GoFetchCurrentView a.

Definition setSchema (schema : string) (a : App) : App :=
  if String.eqb (TrimSpace schema) "" then a
  else
    let a := with_cfg (Config.withSchema schema (cfg a)) a in
    let a := with_spcs (Config.withSchema schema (spcs a)) a in
    fetchCurrentView a.

Definition openInstancesView (a : App) : App :=
  if negb (viewKind_eqb (view a) viewServices) then
    showError "Instances view requires Services selection" a
  else
    match SelectedRow (table a) with
    | Some row =>
        match Cells row with
        | _ :: name :: _ => setView viewInstances (with_activeService name a)
        | _ => showError "Select a service first to view instances" a
        end
    | None => showError "Select a service first to view instances" a
    end.

Definition toggleHelp (a : App) : App :=
  if helpVisible a then with_helpVisible false (showError "" a)
  else
    showError
      "j/k/↓/↑ move  g/G top/bottom  / filter  : cmd  s/p/r views  i instances  b back  enter details  esc clear  ctrl+r refresh  q quit"
      (with_helpVisible true a).

Definition oneOf (s : string) (l : list string) : bool :=
  existsb (String.eqb s) l.

Definition runCommand (cmd : string) (a : App) : App :=
  if String.eqb cmd "" then a
  else
    match Fields cmd with
    | [] => a
    | first :: args =>
        let c := ToLower first in
        if oneOf c ["svc"; "service"; "services"] then setView viewServices a
        else if oneOf c ["pool"; "pools"; "cp"] then setView viewPools a
        else if oneOf c ["repo"; "repos"; "image"; "images"]
        then setView viewRepos a
        else if oneOf c ["inst"; "instances"] then openInstancesView a
        else if oneOf c ["ns"; "namespace"; "schema"] then
          match args with
          | [] => showError "Usage: :ns <schema>" a
          | schema :: _ => setSchema schema a
          end
        else if oneOf c ["help"; "?"] then toggleHelp a
        else showError ("Unknown command: " ++ first) a
    end.

(** The part shared by the two cases of [completeInput]. *)
Definition leaveInput (a : App) : App :=
  let a := filterField_SetDisabled true a in
  let a := filterField_SetLabel "" a in
  let a := with_inputMode inputNone a in
  let a := SetFocus FocusTable a in
  let a := with_footer (SetHints defaultKeyHints (footer a)) a in
  let a := SwitchToPage "footer" a in
  updateFooterStatus a.

Definition completeInput (key : Key) (a : App) : App :=
  let txt := TrimSpace (text (filterField a)) in
  match inputMode a with
  | inputFilter =>
      let a :=
        if isEsc key then
          let a := filterField_SetText "" a in
          with_table (SetFilter "" (table a)) a
        else a in
      if isEnter key || isEsc key then leaveInput a else a
  | inputCommand =>
      let a := if isEnter key then runCommand txt a else a in
      if isEnter key || isEsc key then
        leaveInput (filterField_SetText "" a)
      else a
  | inputNone => a
  end.

Definition viewHeaders (v : viewKind) : list string :=
  match v with
  | viewServices => ["NAMESPACE"; "NAME"; "STATUS"; "POOL"; "AGE"]
  | viewPools => ["NAME"; "STATE"; "MIN"; "MAX"; "FAMILY"; "AGE"]
  | viewRepos => ["NAME"; "REPO_URL"; "OWNER"; "AGE"]
  | viewInstances => ["INSTANCE"; "STATUS"; "NODE"; "AGE"]
  end.

(** What [loadViewData] returns for the rows [rs] of a listing: the
    warning is set when there are none. *)
Definition listing (v : viewKind) (rs : list TableRow) (col : Z)
    (empty : string) : viewData * option string :=
  ({| ViewData.headers := viewHeaders v; ViewData.rows := rs;
      ViewData.statusColumn := col;
      ViewData.warning := if GoInt.len rs =? 0 then empty else "" |},
   None).

(** [loadViewData]: [v] and [service] are [a.view] and [a.activeService]
    as read when the call starts, [r] is the provider's answer and [a]
    the state when it arrives. *)
Definition loadViewData (v : viewKind) (service : string) (r : Reply)
    (a : App) : viewData * option string :=
  match v with
  | viewServices =>
      match r with
      | Failed err => (ViewData.zero, Some err)
      | Listed rs =>
          listing v rs 2 ("No items found in " ++ Config.Schema (cfg a))
      end
  | viewPools =>
      match r with
      | Failed err => (ViewData.zero, Some err)
      | Listed rs => listing v rs 1 "No items found in compute pools"
      end
  | viewRepos =>
      match r with
      | Failed err => (ViewData.zero, Some err)
      | Listed rs =>
          listing v rs (-1)
            ("No items found in " ++ Config.Database (cfg a) ++ "."
             ++ Config.Schema (cfg a))
      end
  | viewInstances =>
      if String.eqb service "" then
        ({| ViewData.headers := viewHeaders v; ViewData.rows := [];
            ViewData.statusColumn := -1;
            ViewData.warning := "Select a service to view instances" |},
         None)
      else
        match r with
        | Failed err => (ViewData.zero, Some err)
        | Listed rs =>
            listing v rs 1 ("No instances found for " ++ activeService a)
        end
  end.

(** [loadViewData] makes no listing call for the instances view when no
    service is active. *)
Definition noCall (v : viewKind) (service : string) : bool :=
  viewKind_eqb v viewInstances && String.eqb service "".

(** The text of the banner, [errorView]. *)
Definition banner (a : App) : string := Text (errorView a).

(** The closure that the fetch goroutine queues once [loadViewData] has
    returned. *)
Definition fetched (data : viewData) (err : option string) (a : App) : App :=
  let a :=
    match err with
    | Some e =>
        setError
          ("Error fetching " ++ ToLower (viewName (view a)) ++ ": " ++ e
           ++ " (Ctrl+r to retry)") a
    | None =>
        if negb (String.eqb (ViewData.warning data) "")
        then setError (ViewData.warning data) a
        else setError "" a
    end in
  let a :=
    match err with
    | None =>
        let t := SetStatusColumn (ViewData.statusColumn data) (table a) in
        with_table (SetData (ViewData.headers data) (ViewData.rows data) t) a
    | Some _ => a
    end in
  let a := updateFooterStatus a in
  if InputMode_eqb (inputMode a) inputNone && negb (detailVisible a)
  then SetFocus FocusTable a else a.

Definition frames : list string :=
  ["⠋"; "⠙"; "⠹"; "⠸"; "⠼"; "⠴"; "⠦"; "⠧"; "⠇"; "⠏"].

(** Running one queued closure on the UI thread. *)
Definition runUpdate (u : Update) (a : App) : App :=
  match u with
  | UpdSetError msg => setError msg a
  | UpdFetched data err => fetched data err a
  | UpdFooterDefault =>
      updateFooterStatus (with_footer (SetHints defaultKeyHints (footer a)) a)
  | UpdSpinner frame =>
      with_footer
        (SetHints [frame ++ " Fetching " ++ ToLower (viewName (view a)) ++ "..."]
           (footer a)) a
  end.

(** One step of goroutine [i], up to its next lock, provider call or
    sleep; [r] is the provider's answer when the step ends a call. *)
Definition stepGoroutine (i : nat) (r : Reply) (a : App) : option App :=
  match goroutines a !! i with
  | None => None
  | Some GoFetchCurrentView =>
      Some (fetchCurrentView (with_goroutines (delete i (goroutines a)) a))
  | Some GoFetch =>
      let a := setLoading true a in
      Some (with_goroutines
              (<[i := GoLoadViewData (view a) (activeService a)]>
                 (goroutines a)) a)
  | Some (GoLoadViewData v service) =>
      let '(data, err) := loadViewData v service r a in
      let a := with_goroutines (delete i (goroutines a)) a in
      let a := setLoading false a in
      Some (QueueUpdateDraw (UpdFetched data err) a)
  | Some (GoSpin idx) =>
      if loading a then
        let frame := default "" (frames !! (idx mod length frames)%nat) in
        let a := QueueUpdateDraw (UpdSpinner frame) a in
        Some (with_goroutines (<[i := GoSpin (S idx)]> (goroutines a)) a)
      else Some (with_goroutines (delete i (goroutines a)) a)
  end.

(** The [KeyCtrlR] case of [handleKey], with the two tests before the
    [switch]. *)
Definition handleCtrlR (a : App) : App :=
  if detailVisible a then a
  else if negb (InputMode_eqb (inputMode a) inputNone)
          && match focus a with FocusInput => true | _ => false end
  then a
  else fetchCurrentView a.

(** What can happen next: the refresh loop calls [fetchCurrentView] (at
    start and on every tick), the user presses Ctrl+R, the UI thread runs
    the oldest queued closure, or a goroutine takes a step. *)
Inductive Event :=
| Tick
| CtrlR
| Draw
| Sched (i : nat) (r : Reply).

Definition step (e : Event) (a : App) : option App :=
  match e with
  | Tick => Some (fetchCurrentView a)
  | CtrlR => Some (handleCtrlR a)
  | Draw =>
      match updates a with
      | [] => None
      | u :: rest => Some (runUpdate u (with_updates rest a))
      end
  | Sched i r => stepGoroutine i r a
  end.

Fixpoint run (es : list Event) (a : App) : option App :=
  match es with
  | [] => Some a
  | e :: rest =>
      match step e a with
      | Some a' => run rest a'
      | None => None
      end
  end.

(** The fetches in flight: goroutines inside [loadViewData]. *)
Definition isLoading (g : Goroutine) : bool :=
  match g with GoLoadViewData _ _ => true | _ => false end.

Definition inFlight (a : App) : nat :=
  length (List.filter isLoading (goroutines a)).

Definition NewApp (c s : Config.Config) : App :=
  {| updates := []; focus := FocusNone; goroutines := [];
     header := "";
     footer := SetHints defaultKeyHints {| hints := ""; status := "" |};
     errorView := {| Text := ""; BackgroundColor := ColorRed |};
     table := SetTitle " Services " NewDataTable;
     filterField := {| text := ""; label := ""; disabled := true |};
     spcs := s; cfg := c; loading := false; helpVisible := false;
     bottomPages := None; detailVisible := false; view := viewServices;
     activeService := ""; inputMode := inputNone |}.

(** [Run], up to the start of the refresh loop. *)
Definition Run (a : App) : App :=
  let a := with_bottomPages (Some "footer") a in
  let a := SetFocus FocusTable a in
  setView viewServices a.

End WithUnicode.

End UI.

(** ** Concrete states, for the examples below *)

Module Examples.
Import Strings Table UI.

(** On ASCII text the Unicode tables are never consulted; this instance
    serves to evaluate the model on such text. *)
Definition asciiText : Unicode :=
  {| Map_ToLower := fun s => s;
     TrimFunc_IsSpace := fun s => s;
     TrimRightFunc_IsSpace := fun s => s;
     FieldsFunc_IsSpace := fun s => [s] |}.

Definition public : Config.Config :=
  {| Config.Account := "acct"; Config.User := "user";
     Config.Password := "secret"; Config.PrivateKeyPath := "";
     Config.Database := "DB"; Config.Schema := "PUBLIC";
     Config.Warehouse := "WH"; Config.Context_ := "";
     Config.Debug := false |}.

(** The application right after [Run] has set it up. *)
Definition started : App :=
  @Run asciiText (NewApp public public).

Definition twoRows : list TableRow :=
  [ {| Cells := ["alpha"; "running"] |}; {| Cells := ["beta"; "stopped"] |} ].

Definition threeRows : list TableRow :=
  [ {| Cells := ["PUBLIC"; "alpha"; "RUNNING"; "pool"; "1d"] |};
    {| Cells := ["PUBLIC"; "beta"; "STOPPED"; "pool"; "2d"] |};
    {| Cells := ["PUBLIC"; "gamma"; "RUNNING"; "pool"; "3d"] |} ].

Definition twoRowTable : DataTable :=
  @SetData asciiText ["NAME"; "STATUS"] twoRows NewDataTable.

(** [started], once a fetch answered with [rs] has been drawn: the
    goroutine of [setView] calls [fetchCurrentView], the fetch goroutine
    loads and queues its closure, the spinner stops and the UI thread
    runs the two queued closures. *)
Definition showing (rs : list TableRow) : App :=
  default started
    (@run asciiText
       [Sched 0 (Listed []); Sched 0 (Listed []); Sched 0 (Listed rs);
        Sched 0 (Listed []); Draw; Draw]
       started).

(** The user filters by [run]: [/], the text, Enter. *)
Definition filteredByRun : App :=
  @completeInput asciiText KeyEnter
    (@filterField_SetText asciiText "run"
       (@activateInput asciiText inputFilter "/ " (showing threeRows))).

(** Then types a command: [:], the text. *)
Definition typedNsStaging : App :=
  @filterField_SetText asciiText "ns STAGING"
    (@activateInput asciiText inputCommand ": " filteredByRun).

(** A view whose last fetch returned nothing. *)
Definition showingNothing : App := showing [].

(** Ctrl+R, answered by [r]: the fetch goroutine starts and loads, the
    answer arrives, the spinner stops, the two queued closures run. *)
Definition refreshed (r : Reply) (a : App) : App :=
  default a
    (@run asciiText
       [CtrlR; Sched 0 (Listed []); Sched 0 r; Sched 0 (Listed []); Draw; Draw]
       a).

(** A refresh fails on a view that shows three rows; the next one
    succeeds and finds nothing. *)
Definition afterFailure : App := refreshed (Failed "timeout") (showing threeRows).
Definition afterFailureThenEmpty : App := refreshed (Listed []) afterFailure.

(** The second row selected with [j]. *)
Definition secondRowSelected : App :=
  @mutate asciiText (MoveBy 1) (showing threeRows).

(** [i] on the first service, whose instance listing then answers with
    nothing. *)
Definition noInstances : App :=
  default started
    (@run asciiText
       [Sched 0 (Listed []); Sched 0 (Listed []); Sched 0 (Listed []);
        Sched 0 (Listed []); Draw; Draw]
       (@openInstancesView asciiText (showing threeRows))).

End Examples.

(** ** What the grid of a rendered table holds *)

Module Shown.
Import Table.

(** [fmt.Sprintf(" %s ", v)] *)
Definition pad (v : string) : string := " " ++ v ++ " ".

(** The header line, then one line per row. *)
Definition grid (hs : list string) (rs : list TableRow)
  : list (list string) :=
  map pad hs :: map (fun r => map pad (Cells r)) rs.

End Shown.

(** ** The fetch goroutines and the loading flag *)

Module Sched.
Import Strings Table UI.

(** A goroutine that has been started by [fetchCurrentView] and has not
    yet reached [a.setLoading(true)]. *)
Definition isPending (g : Goroutine) : bool :=
  match g with GoFetch => true | _ => false end.

Definition pending (a : App) : nat :=
  length (List.filter isPending (goroutines a)).

Section WithUnicode.
Context {U : Unicode}.

(** The events whose step calls [fetchCurrentView]. *)
Definition requests (e : Event) (a : App) : bool :=
  match e with
  | Tick | CtrlR => true
  | Draw => false
  | Sched i _ =>
      match goroutines a !! i with
      | Some GoFetchCurrentView => true
      | _ => false
      end
  end.

(** A schedule in which no request is made while an earlier one still
    waits for its goroutine to start. *)
Fixpoint prompt (es : list Event) (a : App) : Prop :=
  match es with
  | [] => True
  | e :: rest =>
      (requests e a = true -> pending a = 0%nat) /\
      match step e a with
      | Some a' => prompt rest a'
      | None => True
      end
  end.

End WithUnicode.

(** The loading flag and the goroutines agree: one fetch in flight while
    the flag is set, none and at most one waiting to start otherwise. *)
Definition singleFlight (a : App) : Prop :=
  if loading a then inFlight a = 1%nat /\ pending a = 0%nat
  else inFlight a = 0%nat /\ (pending a <= 1)%nat.

(** The input field has the focus exactly while an input mode is on. *)
Definition inputHasFocus (a : App) : Prop :=
  focus a = FocusInput <-> inputMode a <> inputNone.

(** Nothing queued, nothing running, no input in progress. *)
Definition quiescent (a : App) : Prop :=
  inputMode a = inputNone /\ detailVisible a = false /\ loading a = false /\
  goroutines a = [] /\ updates a = [].
(** How one call of [fetchCurrentView] changes the flag and the two
    counts: not at all, or one more goroutine waits to start. *)
Definition requested (a a' : App) : Prop :=
  loading a' = loading a /\ inFlight a' = inFlight a /\
  (pending a' = pending a \/
   loading a = false /\ pending a' = S (pending a)).

End Sched.

(** ** More of [strings], for separators of one byte *)
Module Bytes.

(** [strings.Split(s, sep)]: [cur] is the piece being read. *)
Fixpoint splitAt (sep : ascii) (s cur : string) : list string :=
  match s with
  | EmptyString => [cur]
  | String c s' =>
      if Ascii.eqb c sep then cur :: splitAt sep s' ""
      else splitAt sep s' (cur ++ String c "")
  end.

Definition Split (s : string) (sep : ascii) : list string := splitAt sep s "".

(** [strings.SplitN(s, sep, 2)]: cut once, at the first separator. *)
Fixpoint cutAt (sep : ascii) (s cur : string) : list string :=
  match s with
  | EmptyString => [cur]
  | String c s' =>
      if Ascii.eqb c sep then [cur; s']
      else cutAt sep s' (cur ++ String c "")
  end.

Definition SplitN2 (s : string) (sep : ascii) : list string := cutAt sep s "".

Fixpoint hasByte (b : ascii) (s : string) : bool :=
  match s with
  | EmptyString => false
  | String c s' => Ascii.eqb c b || hasByte b s'
  end.

End Bytes.

(** ** The process environment, as [os.LookupEnv] and [os.Setenv] see it *)
Module Os.

Definition Env := list (string * string).

Fixpoint LookupEnv (env : Env) (key : string) : option string :=
  match env with
  | [] => None
  | (k, v) :: rest => if String.eqb k key then Some v else LookupEnv rest key
  end.

(** [os.Setenv] refuses an empty key, a key with [=] or a NUL byte and a
    value with a NUL byte; the environment is then left as it was. *)
Definition Setenv (key value : string) (env : Env) : Env :=
  if String.eqb key "" || Bytes.hasByte "=" key || Bytes.hasByte Ascii.zero key
     || Bytes.hasByte Ascii.zero value
  then env
  else (key, value)
       :: List.filter (fun kv => negb (String.eqb (fst kv) key)) env.

End Os.

(** ** [internal/config/config.go]: [Validate] and [loadEnvOverrides] *)
Module ConfigFile.
Import Strings Config.

(** [stat p] is the error of [os.Stat(p)], if any. *)
Definition Validate (stat : string -> option string) (c : Config)
  : option string :=
  if String.eqb (Account c) "" then Some "account is required"
  else if String.eqb (User c) "" then Some "user is required"
  else if String.eqb (Password c) "" && String.eqb (PrivateKeyPath c) ""
  then Some "password or private key path is required"
  else if negb (String.eqb (PrivateKeyPath c) "") then
    match stat (PrivateKeyPath c) with
    | Some err => Some ("private key path: " ++ err)
    | None => None
    end
  else None.

Section WithUnicode.
Context {U : Unicode}.

(** The body of the loop of [loadEnvOverrides]. *)
Definition loadEnvLine (line : string) (env : Os.Env) : Os.Env :=
  let line := TrimSpace line in
  if String.eqb line "" || HasPrefix line "#" then env
  else
    match Bytes.SplitN2 line "=" with
    | [k; v] =>
        let key := TrimSpace k in
        let val := TrimSpace v in
        if String.eqb key "" || String.eqb val "" then env
        else
          match Os.LookupEnv env key with
          | Some existing =>
              if negb (String.eqb existing "") then env
              else Os.Setenv key val env
          | None => Os.Setenv key val env
          end
    | _ => env
    end.

(** [data] is what [os.ReadFile(envPath)] returned, [None] for an
    error. *)
Definition loadEnvOverrides (data : option string) (env : Os.Env) : Os.Env :=
  match data with
  | None => env
  | Some d =>
      fold_left (fun e line => loadEnvLine line e) (Bytes.Split d "010") env
  end.

End WithUnicode.
End ConfigFile.

(** ** [internal/snowflake/spcs.go]: [fallback] *)
Module Provider.
Import Strings.
Section WithUnicode.
Context {U : Unicode}.

Fixpoint fallback (values : list string) : string :=
  match values with
  | [] => ""
  | v :: rest => if negb (String.eqb (TrimSpace v) "") then v else fallback rest
  end.

End WithUnicode.
End Provider.

(** ** The detail pane: [mapFromRow] and [formatKeyValues] *)
Module Detail.
Import Strings Table.

(** A [map[string]string]: each key once, in the order of first
    insertion. *)
Definition GoMap := list (string * string).

Fixpoint mapGet (k : string) (m : GoMap) : option string :=
  match m with
  | [] => None
  | (k', v) :: rest => if String.eqb k' k then Some v else mapGet k rest
  end.

(** [m[k] = v] *)
Fixpoint mapSet (k v : string) (m : GoMap) : GoMap :=
  match m with
  | [] => [(k, v)]
  | (k', v') :: rest =>
      if String.eqb k' k then (k', v) :: rest else (k', v') :: mapSet k v rest
  end.

(** [for i, h := range headers { if i < len(row.Cells) { out[h] =
    row.Cells[i] } }] *)
Fixpoint fillFrom (headers cells : list string) (out : GoMap) : GoMap :=
  match headers, cells with
  | h :: hs, c :: cs => fillFrom hs cs (mapSet h c out)
  | _, _ => out
  end.

Definition mapFromRow (row : TableRow) (headers : list string) : GoMap :=
  fillFrom headers (Cells row) [].

(** [sort.Strings]: ascending, bytewise. *)
Fixpoint insertSorted (k : string) (l : list string) : list string :=
  match l with
  | [] => [k]
  | x :: rest =>
      if String.leb k x then k :: l else x :: insertSorted k rest
  end.

Definition sortStrings (l : list string) : list string :=
  fold_right insertSorted [] l.

Section WithUnicode.
Context {U : Unicode}.

Fixpoint writeLines (keys : list string) (values : GoMap) : string :=
  match keys with
  | [] => ""
  | k :: rest =>
      let v := default "" (mapGet k values) in
      if String.eqb (TrimSpace v) "" then writeLines rest values
      else (k ++ ": " ++ v ++ String "010" "") ++ writeLines rest values
  end.

Definition formatKeyValues (values : GoMap) : string :=
  if GoInt.len values =? 0 then "(no details)"
  else writeLines (sortStrings (map fst values)) values.

End WithUnicode.
End Detail.

(** ** More concrete states *)

Module Samples.
Import Strings Table UI Examples.

(** The user has typed [run] at the filter prompt. *)
Definition typedRun : App :=
  @filterField_SetText asciiText "run"
    (@activateInput asciiText inputFilter "/ " (showing threeRows)).

(** [started], with its first fetch inside [loadViewData]. *)
Definition fetching : App :=
  default started
    (@run asciiText [Sched 0 (Listed []); Sched 0 (Listed [])] started).

(** An environment file and an environment. *)
Definition envFile : string :=
  "# credentials" ++ String "010" "" ++
  "SNOWFLAKE_ACCOUNT=envfile" ++ String "010" "" ++
  "SNOWFLAKE_USER = envuser" ++ String "010" "" ++
  "SNOWFLAKE_ACCOUNT=second" ++ String "010" "".

Definition shellEnv : Os.Env :=
  [("SNOWFLAKE_USER", "shelluser"); ("SNOWFLAKE_ACCOUNT", "")].

(** Every file exists. *)
Definition present (path : string) : option string := None.

(** Flags that name a warehouse only. *)
Definition flags : Config.Config :=
  {| Config.Account := ""; Config.User := ""; Config.Password := "";
     Config.PrivateKeyPath := ""; Config.Database := "";
     Config.Schema := ""; Config.Warehouse := "XL"; Config.Context_ := "";
     Config.Debug := true |}.

End Samples.

(** * Properties *)

(** ** Integers and strings *)

Section GoIntFacts.
Import GoInt.

Lemma wrap_small z : - 2 ^ 63 <= z < 2 ^ 63 -> wrap z = z.
Proof.
  intros Hz. unfold wrap. rewrite Z.mod_small by lia. lia.
Qed.

Lemma len_nonneg {A} (l : list A) : 0 <= len l.
Proof. unfold len. lia. Qed.

End GoIntFacts.

Section StringFacts.
Import Strings.
Context {U : Unicode}.

Lemma append_assoc (s1 s2 s3 : string) : (s1 ++ s2) ++ s3 = s1 ++ s2 ++ s3.
Proof.
  induction s1 as [|c s1 IH]; simpl; [reflexivity|]. now rewrite IH.
Qed.

Lemma prefix_self s : String.prefix s s = true.
Proof.
  induction s as [|c s IH]; simpl; [reflexivity|].
  destruct (ascii_dec c c); [exact IH | congruence].
Qed.

Lemma index_suffix pre sub :
  exists n, String.index 0 sub (pre ++ sub) = Some n.
Proof.
  induction pre as [|c pre [n IH]].
  - destruct sub as [|b sub]; [exists 0%nat; reflexivity|].
    exists 0%nat. cbn [append String.index].
    now rewrite prefix_self.
  - cbn [append String.index].
    destruct (String.prefix sub (String c (pre ++ sub)));
      [exists 0%nat; reflexivity|].
    rewrite IH. now exists (S n).
Qed.

Lemma Contains_suffix pre sub : Contains (pre ++ sub) sub = true.
Proof.
  unfold Contains, Index. destruct (index_suffix pre sub) as [n ->].
  apply Z.leb_le. lia.
Qed.

Lemma asciiSpace_isASCII c : asciiSpace c = true -> nonASCII c = false.
Proof.
  unfold asciiSpace, nonASCII. intros Hc. apply Z.leb_gt.
  repeat (apply orb_prop in Hc as [Hc|Hc]); apply Z.eqb_eq in Hc; lia.
Qed.

Lemma skipSpace_blank s :
  forallb asciiSpace (list_ascii_of_string s) = true -> skipSpace s = inl "".
Proof.
  induction s as [|c s IH]; simpl; [reflexivity|].
  intros Hs. apply andb_prop in Hs as [Hc Hs].
  rewrite (asciiSpace_isASCII c Hc), Hc. auto.
Qed.

(** A text made of ASCII white space only is trimmed to nothing. *)
Lemma TrimSpace_blank s :
  forallb asciiSpace (list_ascii_of_string s) = true -> TrimSpace s = "".
Proof.
  intros Hs. unfold TrimSpace. rewrite (skipSpace_blank s Hs). reflexivity.
Qed.

End StringFacts.

(** On ASCII text the three functions never reach the Unicode tables:
    they give the same result whatever the tables are. *)
Section AsciiFacts.
Import Strings.
Variables U1 U2 : Unicode.

Lemma isASCII_append s1 s2 :
  isASCII (s1 ++ s2) = isASCII s1 && isASCII s2.
Proof.
  induction s1 as [|c s1 IH]; simpl; [reflexivity|].
  rewrite IH. apply andb_assoc.
Qed.

Lemma isASCII_rev s : isASCII (rev s) = isASCII s.
Proof.
  induction s as [|c s IH]; simpl; [reflexivity|].
  rewrite isASCII_append, IH. simpl.
  rewrite andb_true_r. apply andb_comm.
Qed.

Lemma skipSpace_ascii s :
  isASCII s = true -> exists r, skipSpace s = inl r /\ isASCII r = true.
Proof.
  induction s as [|c s IH]; simpl; intros Hs; [eauto|].
  apply andb_prop in Hs as [Hc Hs]. apply negb_true_iff in Hc. rewrite Hc.
  destruct (asciiSpace c); [auto|].
  exists (String c s). simpl. rewrite Hc, Hs. auto.
Qed.

Lemma ToLower_ascii s : isASCII s = true -> @ToLower U1 s = @ToLower U2 s.
Proof. intros Hs. unfold ToLower. rewrite Hs. reflexivity. Qed.

Lemma TrimSpace_ascii s :
  isASCII s = true -> @TrimSpace U1 s = @TrimSpace U2 s.
Proof.
  intros Hs. unfold TrimSpace.
  destruct (skipSpace_ascii s Hs) as (r & -> & Hr).
  rewrite <- isASCII_rev in Hr.
  destruct (skipSpace_ascii (rev r) Hr) as (r' & -> & _). reflexivity.
Qed.

Lemma Fields_ascii s : isASCII s = true -> @Fields U1 s = @Fields U2 s.
Proof. intros Hs. unfold Fields. rewrite Hs. reflexivity. Qed.

End AsciiFacts.

(** ** Lists *)

Section ListFacts.
Context {A : Type} (p : A -> bool).

Lemma filter_sublist (l : list A) : sublist (List.filter p l) l.
Proof.
  induction l as [|x l IH]; simpl.
  - constructor.
  - destruct (p x); [apply sublist_skip | apply sublist_cons]; exact IH.
Qed.

Lemma filter_all (l : list A) :
  (forall x, p x = true) -> List.filter p l = l.
Proof.
  intros Hp. induction l as [|x l IH]; simpl; [reflexivity|].
  rewrite Hp, IH. reflexivity.
Qed.

Lemma filter_twice (l : list A) :
  List.filter p (List.filter p l) = List.filter p l.
Proof.
  induction l as [|x l IH]; simpl; [reflexivity|].
  destruct (p x) eqn:Hx; simpl; [rewrite Hx, IH|]; auto.
Qed.

Lemma Forall_filter_keep (P : A -> Prop) (l : list A) :
  Forall P l -> Forall P (List.filter p l).
Proof.
  induction 1 as [|x l Hx Hl IH]; simpl; [constructor|].
  destruct (p x); [constructor|]; assumption.
Qed.

End ListFacts.

(** ** The table *)

Section TableFacts.
Import Strings Table.
Context {U : Unicode}.

Lemma setLine_selection row c vs tv :
  Tview.selectedRow (setLine row c vs tv) = Tview.selectedRow tv /\
  Tview.selectedColumn (setLine row c vs tv) = Tview.selectedColumn tv.
Proof.
  revert c tv. induction vs as [|v vs IH]; intros c tv; cbn [setLine];
    [auto|].
  destruct (IH (S c) (Tview.SetCell row c (" " ++ v ++ " ") tv)) as (-> & ->).
  auto.
Qed.

Lemma setLines_selection r rs tv :
  Tview.selectedRow (setLines r rs tv) = Tview.selectedRow tv /\
  Tview.selectedColumn (setLines r rs tv) = Tview.selectedColumn tv.
Proof.
  revert r tv. induction rs as [|row rs IH]; intros r tv; cbn [setLines];
    [auto|].
  destruct (IH (S r) (setLine (S r) 0 (Cells row) tv)) as (-> & ->).
  apply setLine_selection.
Qed.

(** [render] selects the first row when there is one and leaves the
    selection alone otherwise. *)
Lemma render_selection t :
  GetSelection (render t) =
    if 0 <? GoInt.len (filtered t) then (1, 0) else GetSelection t.
Proof.
  unfold render, GetSelection, Tview.GetSelection. cbn [tbl with_tbl].
  destruct (0 <? GoInt.len (filtered t)); [reflexivity|].
  destruct (setLines_selection 0 (filtered t)
              (setLine 0 0 (headers t) (Tview.Clear (tbl t)))) as (-> & ->).
  destruct (setLine_selection 0 0 (headers t) (Tview.Clear (tbl t)))
    as (-> & ->).
  reflexivity.
Qed.

Lemma SetCell_rows row c x tv :
  length (Tview.cells (Tview.SetCell row c x tv))
  = Nat.max (length (Tview.cells tv)) (S row).
Proof.
  unfold Tview.SetCell. cbn [Tview.cells].
  rewrite length_insert, length_app, length_replicate. lia.
Qed.

Lemma setLine_rows row c vs tv :
  length (Tview.cells (setLine row c vs tv))
  = match vs with
    | [] => length (Tview.cells tv)
    | _ => Nat.max (length (Tview.cells tv)) (S row)
    end.
Proof.
  revert c tv. induction vs as [|v vs IH]; intros c tv; cbn [setLine];
    [reflexivity|].
  rewrite IH, SetCell_rows. destruct vs; lia.
Qed.

Lemma setLines_rows r rs tv :
  Forall hasCells rs ->
  length (Tview.cells (setLines r rs tv))
  = match rs with
    | [] => length (Tview.cells tv)
    | _ => Nat.max (length (Tview.cells tv)) (S (r + length rs))
    end.
Proof.
  intros Hrs. revert r tv.
  induction Hrs as [|row rs Hrow Hrs IH]; intros r tv; cbn [setLines];
    [reflexivity|].
  rewrite IH, setLine_rows.
  unfold hasCells in Hrow. destruct (Cells row); [congruence|].
  destruct rs; cbn [length]; lia.
Qed.

(** With headers and rows that have cells, the grid drawn by [render]
    has the header row and one row per filtered row. *)
Lemma render_rendered t :
  headers t <> [] -> Forall hasCells (filtered t) -> rendered (render t).
Proof.
  intros Hh Hf. unfold rendered, GetRowCount, Tview.GetRowCount, GoInt.len.
  cbn [filtered render with_tbl tbl].
  assert (Hsel : forall tv (b : bool),
    Tview.cells (if b then Tview.Select 1 0 tv else tv) = Tview.cells tv)
    by (intros tv []; reflexivity).
  rewrite Hsel, (setLines_rows _ _ _ Hf), setLine_rows.
  cbn [Tview.Clear Tview.cells length].
  destruct (headers t); [congruence|].
  destruct (filtered t); cbn [length]; lia.
Qed.

Lemma applyFilter_rendered t :
  headers t <> [] -> Forall hasCells (rows t) -> rendered (applyFilter t).
Proof.
  intros Hh Hr. unfold applyFilter. apply render_rendered.
  - exact Hh.
  - cbn [filtered with_filtered]. apply Forall_filter_keep, Hr.
Qed.

Lemma SetData_rendered hs rs t :
  hs <> [] -> Forall hasCells rs -> rendered (SetData hs rs t).
Proof. intros Hh Hr. apply applyFilter_rendered; assumption. Qed.

Lemma SetFilter_rendered f t :
  headers t <> [] -> Forall hasCells (rows t) -> rendered (SetFilter f t).
Proof. intros Hh Hr. apply applyFilter_rendered; assumption. Qed.

(** The rows [applyFilter] keeps, as a function of the filter text. *)
Lemma filtered_applyFilter t :
  filtered (applyFilter t) =
    List.filter (rowMatches (ToLower (TrimSpace (filter t)))) (rows t).
Proof. reflexivity. Qed.

Lemma rows_applyFilter t : rows (applyFilter t) = rows t.
Proof. reflexivity. Qed.

(** C2: for every row set [R] and filter [f], the filtered set that
    [applyFilter] computes is a subsequence of [R], in [R]'s order; for
    the empty filter it is [R] itself. *)
Theorem applyFilter_subsequence (t : DataTable) (hs : list string)
    (R : list TableRow) (f : string) :
  sublist (filtered (SetFilter f (SetData hs R t))) R /\
  filtered (SetFilter "" (SetData hs R t)) = R.
Proof.
  unfold SetFilter, SetData.
  rewrite !filtered_applyFilter. cbn [rows filter].
  rewrite !rows_applyFilter. cbn [rows].
  split.
  - apply filter_sublist.
  - apply filter_all. intros row. reflexivity.
Qed.

(** C8: filtering is idempotent: loading the filtered set back as the
    row set and filtering it by the same text gives the filtered set. *)
Theorem applyFilter_idempotent (t : DataTable) (hs : list string)
    (R : list TableRow) (f : string) :
  let F := filtered (SetFilter f (SetData hs R t)) in
  filtered (SetFilter f (SetData hs F t)) = F.
Proof.
  cbv zeta. unfold SetFilter, SetData.
  rewrite !filtered_applyFilter. cbn [rows filter].
  rewrite !rows_applyFilter. cbn [rows].
  apply filter_twice.
Qed.

(** Whatever [TrimSpace] reduces to nothing filters like the empty text. *)
Lemma blank_filter_keeps_all (t : DataTable) (f : string) :
  TrimSpace f = "" ->
  filtered (SetFilter f t) = rows t /\
  tbl (SetFilter f t) = tbl (SetFilter "" t).
Proof.
  intros Hf. split.
  - unfold SetFilter. rewrite filtered_applyFilter. cbn [rows filter].
    rewrite Hf. apply filter_all. intros row. reflexivity.
  - unfold SetFilter, applyFilter. cbn [rows filter].
    rewrite Hf. reflexivity.
Qed.

(** C9: a filter text made of white space only behaves like the empty
    filter: it is trimmed before matching, the filtered set is the whole
    row set and the table is drawn as for the empty filter. *)
Theorem whitespace_filter_is_empty_filter (t : DataTable) (f : string) :
  forallb asciiSpace (list_ascii_of_string f) = true ->
  filtered (SetFilter f t) = rows t /\
  filtered (SetFilter f t) = filtered (SetFilter "" t) /\
  tbl (SetFilter f t) = tbl (SetFilter "" t).
Proof.
  intros Hf.
  destruct (blank_filter_keeps_all t f (TrimSpace_blank f Hf)) as [Hk Ht].
  destruct (blank_filter_keeps_all t "" eq_refl) as [Hk0 _].
  split; [exact Hk|]. split; [congruence | exact Ht].
Qed.

(** C6, amended: [SetFilter] stores the text and recomputes the filtered
    set, leaving rows, headers and status column alone; it selects row 1,
    column 0 whenever the new filtered set has a row, and leaves the
    selection as it was (not clamped) when it has none. *)
Theorem SetFilter_resets_selection (t : DataTable) (f : string) :
  let t' := SetFilter f t in
  filter t' = f /\ rows t' = rows t /\ headers t' = headers t /\
  statusColumn t' = statusColumn t /\
  filtered t' = List.filter (rowMatches (ToLower (TrimSpace f))) (rows t) /\
  GetSelection t' =
    if 0 <? GoInt.len (filtered t') then (1, 0) else GetSelection t.
Proof.
  cbv zeta. repeat split.
  unfold SetFilter, applyFilter.
  rewrite render_selection. reflexivity.
Qed.

End TableFacts.

(** ** The configuration *)

Section ConfigFacts.
Import Config.

(** C10: merging the zero value changes nothing; each text field of the
    result is the override when that is not empty and the base field
    otherwise, so an empty override leaves the base field; and [Debug] is
    the disjunction of the two flags. *)
Theorem MergeOverrides_identity_and_debug (base overrides : Config) :
  let kept (b o : string) := if String.eqb o "" then b else o in
  let m := MergeOverrides base overrides in
  MergeOverrides base zero = base /\
  Account m = kept (Account base) (Account overrides) /\
  User m = kept (User base) (User overrides) /\
  Password m = kept (Password base) (Password overrides) /\
  PrivateKeyPath m = kept (PrivateKeyPath base) (PrivateKeyPath overrides) /\
  Database m = kept (Database base) (Database overrides) /\
  Schema m = kept (Schema base) (Schema overrides) /\
  Warehouse m = kept (Warehouse base) (Warehouse overrides) /\
  Context_ m = kept (Context_ base) (Context_ overrides) /\
  Debug m = Debug base || Debug overrides.
Proof.
  cbv zeta. split; [destruct base; reflexivity|].
  unfold MergeOverrides. cbn [Account User Password PrivateKeyPath Database
    Schema Warehouse Context_ Debug].
  repeat match goal with
         | |- context [String.eqb ?s ""] => destruct (String.eqb s "")
         end; cbn [negb];
  destruct (Debug overrides), (Debug base); repeat split.
Qed.

End ConfigFacts.

(** ** Selection *)

Section SelectionFacts.
Import Strings Table UI.
Context {U : Unicode}.

Lemma selected_move delta a :
  selected (move delta a) =
    let r := GoInt.add (selected a) delta in
    let r := if r <? 1 then 1 else r in
    if GetRowCount (table a) <=? r then GetRowCount (table a) - 1 else r.
Proof. reflexivity. Qed.

Lemma selected_selectRow row a :
  selected (selectRow row a) =
    let r := if row <? 1 then 1 else row in
    if GetRowCount (table a) <=? r then GetRowCount (table a) - 1 else r.
Proof. reflexivity. Qed.

Lemma selected_page d a :
  selected (page d a) =
    let total := GetRowCount (table a) in
    if total <=? 1 then selected a
    else
      let r := GoInt.add (selected a) (GoInt.mul (total / 2) d) in
      let r := if r <? 1 then 1 else r in
      if total <=? r then total - 1 else r.
Proof.
  unfold page, selected. destruct (GetRowCount (table a) <=? 1); reflexivity.
Qed.

(** The two tests of [move], [page] and [selectRow], on a grid with at
    least one row under the header. *)
Lemma clamp_range total r :
  2 <= total ->
  1 <= (let r := if r <? 1 then 1 else r in
        if total <=? r then total - 1 else r) <= total - 1.
Proof.
  intros Ht. cbv zeta.
  destruct (r <? 1) eqn:H1.
  - destruct (total <=? 1) eqn:H2; [apply Z.leb_le in H2|]; lia.
  - apply Z.ltb_ge in H1.
    destruct (total <=? r) eqn:H2; [|apply Z.leb_gt in H2]; lia.
Qed.

(** The same tests on a grid that has the header row only. *)
Lemma clamp_header_only r :
  (let r := if r <? 1 then 1 else r in if 1 <=? r then 1 - 1 else r) = 0.
Proof.
  cbv zeta. destruct (r <? 1) eqn:H1; [reflexivity|].
  apply Z.ltb_ge in H1. destruct (1 <=? r) eqn:H2; [reflexivity|].
  apply Z.leb_gt in H2. lia.
Qed.

(** No selection mutation changes the rows that are shown. *)
Lemma filtered_mutate m a :
  filtered (table (mutate m a)) = filtered (table a).
Proof.
  destruct m as [delta|d| |]; cbn [mutate]; try reflexivity.
  unfold page. destruct (GetRowCount (table a) <=? 1); reflexivity.
Qed.

(** The two readers on a table that shows nothing. *)
Lemma readers_empty (t : DataTable) :
  GoInt.len (filtered t) = 0 ->
  SelectionInfo t = "0/0" /\ SelectedRow t = None.
Proof.
  intros Hn. unfold SelectionInfo, SelectedRow. rewrite Hn. auto.
Qed.

(** The two readers when the selection is on one of the rows. *)
Lemma readers_in_range (t : DataTable) :
  let n := GoInt.len (filtered t) in
  let i := Tview.selectedRow (tbl t) in
  1 <= i <= n ->
  SelectionInfo t = GoInt.itoa i ++ "/" ++ GoInt.itoa n /\
  SelectedRow t = filtered t !! Z.to_nat (i - 1).
Proof.
  cbv zeta. intros Hi. unfold SelectionInfo, SelectedRow.
  destruct (Z.eqb_spec (GoInt.len (filtered t)) 0); [lia|].
  destruct (Z.leb_spec (Tview.selectedRow (tbl t)) 0); [lia|].
  destruct (Z.ltb_spec (Tview.selectedRow (tbl t) - 1) 0); [lia|].
  destruct (Z.leb_spec (GoInt.len (filtered t))
              (Tview.selectedRow (tbl t) - 1)); [lia|].
  auto.
Qed.

(** Both readers replace an index that is not positive by 1. *)
Lemma readers_first (t : DataTable) (c : Z) :
  Tview.selectedRow (tbl t) <= 0 ->
  SelectionInfo t = SelectionInfo (Select 1 c t) /\
  SelectedRow t = SelectedRow (Select 1 c t).
Proof.
  intros Hi. unfold SelectionInfo, SelectedRow.
  cbn [Select with_tbl tbl filtered Tview.Select Tview.selectedRow].
  destruct (Z.leb_spec (Tview.selectedRow (tbl t)) 0); [|lia].
  auto.
Qed.

(** C4, amended: on a rendered table whose filtered set has [n >= 1]
    rows, every selection mutation leaves an index [i] with
    [1 <= i <= n], for which [SelectionInfo] reports [i/n] and
    [SelectedRow] returns the row [filtered[i-1]]; when the filtered set
    is empty, moving and jumping leave index 0, the header row, paging
    leaves the index as it was, and [SelectionInfo] reports [0/0] and
    [SelectedRow] no row.  On any table the two readers give for an
    index that is not positive what they give for index 1. *)
Theorem selection_within_rows (a : App) (m : Mutation) :
  rendered (table a) ->
  let n := GoInt.len (filtered (table a)) in
  let t' := table (mutate m a) in
  let i := selected (mutate m a) in
  (if 0 <? n then (1 <=? i) = true /\ (i <=? n) = true
   else i = match m with PageBy _ => selected a | _ => 0 end) /\
  (if 0 <? n
   then SelectionInfo t' = GoInt.itoa i ++ "/" ++ GoInt.itoa n /\
        SelectedRow t' = filtered (table a) !! Z.to_nat (i - 1)
   else SelectionInfo t' = "0/0" /\ SelectedRow t' = None) /\
  (forall (t : DataTable) (c : Z),
     Tview.selectedRow (tbl t) <= 0 ->
     SelectionInfo t = SelectionInfo (Select 1 c t) /\
     SelectedRow t = SelectedRow (Select 1 c t)).
Proof.
  intros Hr. cbv zeta. unfold rendered in Hr.
  pose proof (filtered_mutate m a) as Hf.
  pose proof (readers_in_range (table (mutate m a))) as Hin.
  pose proof (readers_empty (table (mutate m a))) as Hempty.
  cbv zeta in Hin. rewrite Hf in Hin, Hempty.
  set (n := GoInt.len (filtered (table a))) in *.
  assert (Hn : 0 <= n) by apply len_nonneg.
  destruct (0 <? n) eqn:Hpos.
  - apply Z.ltb_lt in Hpos.
    assert (Hrange : 1 <= selected (mutate m a) <= n).
    { destruct m as [delta|d| |]; cbn [mutate].
      + rewrite selected_move, Hr.
        pose proof (clamp_range (n + 1) (GoInt.add (selected a) delta)) as Hc.
        cbv zeta in *. lia.
      + rewrite selected_page, Hr. cbv zeta.
        destruct (n + 1 <=? 1) eqn:H1; [apply Z.leb_le in H1; lia|].
        pose proof (clamp_range (n + 1)
          (GoInt.add (selected a) (GoInt.mul ((n + 1) / 2) d))) as Hc.
        cbv zeta in *. lia.
      + rewrite selected_selectRow, Hr.
        pose proof (clamp_range (n + 1) 1) as Hc. cbv zeta in *. lia.
      + rewrite selected_selectRow, Hr.
        pose proof (clamp_range (n + 1) (n + 1 - 1)) as Hc.
        cbv zeta in *. lia. }
    split; [split; apply Z.leb_le; lia|].
    split; [exact (Hin Hrange) | exact readers_first].
  - apply Z.ltb_ge in Hpos. assert (n = 0) as Hz by lia. rewrite Hz in Hr.
    split; [|split; [exact (Hempty Hz) | exact readers_first]].
    destruct m as [delta|d| |]; cbn [mutate].
    + rewrite selected_move, Hr. apply clamp_header_only.
    + rewrite selected_page, Hr. reflexivity.
    + rewrite selected_selectRow, Hr. apply clamp_header_only.
    + rewrite selected_selectRow, Hr. apply clamp_header_only.
Qed.

(** C7, amended: on a rendered table with [n >= 1] filtered rows, page
    down ([d = 1]) and page up ([d = -1]) move the selection by
    [(n + 1) / 2] rows, half the row count of the grid with its header
    row, and the result is clamped to [1 .. n]; when the filtered set is
    empty, [page] does nothing. *)
Theorem page_moves_by_half_row_count (a : App) (d : Z) :
  rendered (table a) ->
  d = 1 \/ d = -1 ->
  let n := GoInt.len (filtered (table a)) in
  n < 2 ^ 62 ->
  - 2 ^ 62 <= selected a < 2 ^ 62 ->
  if n =? 0 then page d a = a
  else selected (page d a) = Z.min n (Z.max 1 (selected a + (n + 1) / 2 * d)).
Proof.
  intros Hr Hd n Hlt Hs. unfold rendered in Hr. fold n in Hr.
  assert (H0 : 0 <= n) by apply len_nonneg.
  destruct (Z.eqb_spec n 0) as [Hz|Hz].
  { unfold page. rewrite Hr, Hz. reflexivity. }
  assert (Hn : 1 <= n < 2 ^ 62) by lia. clear Hlt Hz H0.
  rewrite selected_page, Hr. cbv zeta.
  change (2 ^ 62) with 4611686018427387904 in *.
  destruct (n + 1 <=? 1) eqn:H1; [apply Z.leb_le in H1; lia|].
  assert (Hhalf : 0 <= (n + 1) / 2 <= 4611686018427387904).
  { split; [apply Z.div_pos; lia|].
    apply Z.div_le_upper_bound; lia. }
  set (h := (n + 1) / 2) in *. clearbody h.
  assert (Hmul : GoInt.mul h d = h * d).
  { unfold GoInt.mul. apply wrap_small.
    change (2 ^ 63) with 9223372036854775808.
    destruct Hd; subst d; lia. }
  rewrite Hmul.
  assert (Hadd : GoInt.add (selected a) (h * d) = selected a + h * d).
  { unfold GoInt.add. apply wrap_small.
    change (2 ^ 63) with 9223372036854775808.
    destruct Hd; subst d; lia. }
  rewrite Hadd.
  set (x := selected a + h * d).
  destruct (x <? 1) eqn:Hx.
  - apply Z.ltb_lt in Hx.
    destruct (n + 1 <=? 1) eqn:H2; [discriminate|]. lia.
  - apply Z.ltb_ge in Hx.
    destruct (n + 1 <=? x) eqn:H2;
      [apply Z.leb_le in H2 | apply Z.leb_gt in H2]; lia.
Qed.

End SelectionFacts.

(** ** Fetching *)

Section FetchFacts.
Import Strings Table UI.
Context {U : Unicode}.

(** Selection mutations redraw nothing and filter nothing. *)
Lemma mutate_rendered m a : rendered (table a) -> rendered (table (mutate m a)).
Proof.
  intros Hr. destruct m as [delta|d| |]; cbn [mutate]; try exact Hr.
  unfold page. destruct (GetRowCount (table a) <=? 1); exact Hr.
Qed.

Lemma fetched_error data e a :
  table (fetched data (Some e) a) = table a /\
  banner (fetched data (Some e) a)
  = "Error fetching " ++ ToLower (viewName (view a)) ++ ": " ++ e
    ++ " (Ctrl+r to retry)".
Proof.
  unfold fetched, banner.
  destruct (InputMode_eqb _ _ && negb _); split; reflexivity.
Qed.

Lemma fetched_ok data a :
  banner (fetched data None a) = ViewData.warning data /\
  rows (table (fetched data None a)) = ViewData.rows data.
Proof.
  unfold fetched, banner.
  destruct (String.eqb (ViewData.warning data) "") eqn:Hw; cbn [negb].
  - apply String.eqb_eq in Hw. rewrite Hw.
    destruct (InputMode_eqb _ _ && negb _); split; reflexivity.
  - destruct (InputMode_eqb _ _ && negb _); split; reflexivity.
Qed.

(** A successful fetch of a view leaves a rendered table, provided the
    rows have cells. *)
Lemma fetched_rendered v rs col notice a :
  Forall hasCells rs ->
  rendered (table (fetched (fst (listing v rs col notice)) None a)).
Proof.
  intros Hrs. unfold fetched. cbn [listing fst ViewData.warning
    ViewData.headers ViewData.rows ViewData.statusColumn].
  assert (Hr : forall b, rendered
    (SetData (viewHeaders v) rs (SetStatusColumn col (table b)))).
  { intros b. apply SetData_rendered; [destruct v; discriminate | exact Hrs]. }
  destruct (negb _); destruct (InputMode_eqb _ _ && negb _); apply Hr.
Qed.

Lemma loadViewData_failed v service e b :
  loadViewData v service (Failed e) b =
    if noCall v service
    then ({| ViewData.headers := viewHeaders viewInstances;
             ViewData.rows := []; ViewData.statusColumn := -1;
             ViewData.warning := "Select a service to view instances" |},
          None)
    else (ViewData.zero, Some e).
Proof. destruct v; reflexivity. Qed.

Lemma loadViewData_listed v service r rs b :
  snd (loadViewData v service (Listed (r :: rs)) b) = None /\
  ViewData.warning (fst (loadViewData v service (Listed (r :: rs)) b))
  = if noCall v service then "Select a service to view instances" else "".
Proof.
  destruct v; cbn [loadViewData noCall viewKind_eqb andb];
    try (split; reflexivity).
  destruct (String.eqb service ""); split; reflexivity.
Qed.

Lemma loadViewData_empty v service b :
  snd (loadViewData v service (Listed []) b) = None /\
  String.eqb (ViewData.warning (fst (loadViewData v service (Listed []) b))) ""
  = false.
Proof.
  destruct v; cbn [loadViewData]; try (split; reflexivity).
  destruct (String.eqb service ""); split; reflexivity.
Qed.

(** C3, amended: a listing that fails with [e] makes [loadViewData]
    return the error; the closure then queued leaves the table as it was
    ([SetData] is not called) and sets the banner to a message that ends
    in the retry hint.  After a later successful fetch the banner is that
    fetch's warning: empty when the listing returned rows, and the
    empty-result notice when it returned none. *)
Theorem failed_fetch_keeps_rows (a : App) (e : string) :
  let a' := fetched ViewData.zero (Some e) a in
  (forall v service b,
     loadViewData v service (Failed e) b =
       if noCall v service
       then ({| ViewData.headers := viewHeaders viewInstances;
                ViewData.rows := []; ViewData.statusColumn := -1;
                ViewData.warning := "Select a service to view instances" |},
             None)
       else (ViewData.zero, Some e)) /\
  table a' = table a /\
  banner a'
  = "Error fetching " ++ ToLower (viewName (view a)) ++ ": " ++ e
    ++ " (Ctrl+r to retry)" /\
  Contains (banner a') "(Ctrl+r to retry)" = true /\
  (forall data b, banner (fetched data None b) = ViewData.warning data) /\
  (forall v service r rs b,
     snd (loadViewData v service (Listed (r :: rs)) b) = None /\
     ViewData.warning (fst (loadViewData v service (Listed (r :: rs)) b))
     = if noCall v service then "Select a service to view instances"
       else "") /\
  (forall v service b,
     snd (loadViewData v service (Listed []) b) = None /\
     String.eqb
       (ViewData.warning (fst (loadViewData v service (Listed []) b))) ""
     = false).
Proof.
  cbv zeta.
  destruct (fetched_error ViewData.zero e a) as [Ht Hb].
  split; [intros; apply loadViewData_failed|].
  split; [exact Ht|]. split; [exact Hb|].
  split.
  { rewrite Hb.
    change " (Ctrl+r to retry)" with (" " ++ "(Ctrl+r to retry)").
    rewrite <- !append_assoc. apply Contains_suffix. }
  split; [intros data b; apply fetched_ok|].
  split; [intros; apply loadViewData_listed | intros; apply loadViewData_empty].
Qed.

(** A tick or a request that finds the loading flag set starts nothing. *)
Lemma fetchCurrentView_dropped a :
  loading a = true -> fetchCurrentView a = a.
Proof.
  intros Hl. unfold fetchCurrentView. rewrite Hl.
  destruct (negb _ || _); reflexivity.
Qed.

Lemma step_dropped a :
  loading a = true -> step Tick a = Some a /\ step CtrlR a = Some a.
Proof.
  intros Hl. cbn [step]. unfold handleCtrlR.
  rewrite (fetchCurrentView_dropped a Hl).
  destruct (detailVisible a); [auto|]. destruct (negb _ && _); auto.
Qed.

(** Nor does one that arrives while text is being entered or the
    detail pane is open. *)
Lemma fetchCurrentView_skipped a :
  inputMode a <> inputNone \/ detailVisible a = true ->
  fetchCurrentView a = a.
Proof.
  intros [Hm | Hd]; unfold fetchCurrentView.
  - destruct (inputMode a); [congruence | reflexivity | reflexivity].
  - rewrite Hd, orb_true_r. reflexivity.
Qed.

(** [fetchCurrentView] only ever starts a goroutine. *)
Lemma fetchCurrentView_frame a :
  cfg (fetchCurrentView a) = cfg a /\ spcs (fetchCurrentView a) = spcs a /\
  table (fetchCurrentView a) = table a.
Proof.
  unfold fetchCurrentView.
  destruct (negb _ || _); [auto|]. destruct (loading a); auto.
Qed.

End FetchFacts.

(** ** Commands *)

Section CommandFacts.
Import Strings Table UI.
Context {U : Unicode}.

Lemma oneOf_ns c :
  oneOf c ["ns"; "namespace"; "schema"] = true ->
  c = "ns" \/ c = "namespace" \/ c = "schema".
Proof.
  unfold oneOf. cbn [existsb]. intros H.
  repeat (apply orb_prop in H as [H|H]);
    try (apply String.eqb_eq in H; auto); discriminate.
Qed.

Lemma setSchema_sets schema a :
  TrimSpace schema <> "" ->
  cfg (setSchema schema a) = Config.withSchema schema (cfg a) /\
  spcs (setSchema schema a) = Config.withSchema schema (spcs a) /\
  table (setSchema schema a) = table a.
Proof.
  intros Hs. unfold setSchema.
  destruct (String.eqb (TrimSpace schema) "") eqn:He;
    [apply String.eqb_eq in He; congruence|].
  destruct (fetchCurrentView_frame
    (with_spcs (Config.withSchema schema (spcs (with_cfg
       (Config.withSchema schema (cfg a)) a)))
       (with_cfg (Config.withSchema schema (cfg a)) a))) as (-> & -> & ->).
  auto.
Qed.

(** C5, amended: a command whose first word is [ns], [namespace] or
    [schema] (in any case) and whose second word [v] is not blank makes
    [v] the schema of the configuration and of the data provider, which
    later fetches use, and leaves the table, its filter included, as it
    was. *)
Theorem ns_command_sets_schema (a : App) (cmd k v : string)
    (rest : list string) :
  cmd <> "" ->
  Fields cmd = k :: v :: rest ->
  oneOf (ToLower k) ["ns"; "namespace"; "schema"] = true ->
  TrimSpace v <> "" ->
  let a' := runCommand cmd a in
  Config.Schema (cfg a') = v /\
  Config.Schema (spcs a') = v /\
  table a' = table a /\
  filter (table a') = filter (table a).
Proof.
  intros Hcmd Hf Hk Hv. cbv zeta.
  assert (Hrun : runCommand cmd a = setSchema v a).
  { unfold runCommand.
    destruct (String.eqb cmd "") eqn:He;
      [apply String.eqb_eq in He; congruence|].
    rewrite Hf.
    destruct (oneOf_ns _ Hk) as [-> | [-> | ->]]; reflexivity. }
  rewrite Hrun.
  destruct (setSchema_sets v a Hv) as (-> & -> & ->).
  auto.
Qed.

End CommandFacts.

(** ** Examples *)

Section Cases.
Import Strings Table UI Examples.
Existing Instance asciiText.

(** The table test of the repository: two rows under a header, then one
    for the filter [run]. *)
Example TestTableFiltering :
  GetRowCount twoRowTable = 3 /\
  GetRowCount (SetFilter "run" twoRowTable) = 2 /\
  SelectionInfo (SetFilter "run" twoRowTable) = "1/1".
Proof. vm_compute. auto. Qed.

(** C1: the startup of [Run]: the refresh loop makes its first call, the
    goroutine of [setView] makes its own, and both find the loading flag
    clear, since it is set only later, by the goroutines they start.
    Both of those then load: two fetches of the same view in flight. *)
Theorem two_fetches_in_flight :
  inFlight started = 0%nat /\
  option_map (fun a => (inFlight a, loading a))
    (run [Tick; Sched 0 (Listed []); Sched 0 (Listed []); Sched 1 (Listed [])]
       started)
  = Some (2%nat, true).
Proof. vm_compute. auto. Qed.

(** The same for two presses of Ctrl+R before the first goroutine runs. *)
Example two_refreshes_in_flight :
  option_map inFlight
    (run [CtrlR; CtrlR; Sched 0 (Listed []); Sched 1 (Listed [])]
       (showing threeRows))
  = Some 2%nat.
Proof. vm_compute. reflexivity. Qed.

(** C3 as stated fails: after a failed refresh, a refresh that succeeds
    and finds nothing leaves a banner. *)
Lemma empty_fetch_leaves_banner :
  Contains (banner afterFailure) "(Ctrl+r to retry)" = true /\
  rows (table afterFailure) = threeRows /\
  banner afterFailureThenEmpty = "No items found in PUBLIC" /\
  banner afterFailureThenEmpty <> "".
Proof. vm_compute. repeat split. discriminate. Qed.

(** In the instances view the empty-result notice is even painted as an
    error: it starts with neither of the two prefixes [setError] knows. *)
Example empty_instances_banner :
  view noInstances = viewInstances /\
  activeService noInstances = "alpha" /\
  errorView noInstances
  = {| Text := "No instances found for alpha"; BackgroundColor := ColorRed |}.
Proof. vm_compute. auto. Qed.

(** Before the first fetch has been drawn the grid is empty, and [j]
    leaves index -1. *)
Example selection_before_first_draw :
  GetRowCount (table started) = 0 /\
  selected (mutate (MoveBy 1) started) = -1.
Proof. vm_compute. auto. Qed.

(** C4 as stated fails: with nothing to show, [j] leaves index 0. *)
Lemma selection_zero_on_empty :
  rendered (table showingNothing) /\
  GoInt.len (filtered (table showingNothing)) = 0 /\
  selected (mutate (MoveBy 1) showingNothing) = 0 /\
  ~ (1 <= selected (mutate (MoveBy 1) showingNothing)
     <= Z.max 1 (GoInt.len (filtered (table showingNothing)))).
Proof.
  vm_compute. repeat split. intros [H _]. apply H. reflexivity.
Qed.

Lemma selection_within_rows_witness :
  rendered (table (showing threeRows)) /\
  (1 <=? selected (mutate (MoveBy 5) (showing threeRows))) = true /\
  (selected (mutate (MoveBy 5) (showing threeRows)) <=? 3) = true /\
  SelectionInfo (table (mutate (MoveBy 5) (showing threeRows))) = "3/3" /\
  SelectedRow (table (mutate (MoveBy 5) (showing threeRows)))
  = Some {| Cells := ["PUBLIC"; "gamma"; "RUNNING"; "pool"; "3d"] |}.
Proof.
  assert (H : rendered (table (showing threeRows)))
    by (vm_compute; reflexivity).
  split; [exact H|].
  generalize (selection_within_rows (showing threeRows) (MoveBy 5) H).
  vm_compute. intros ((H1 & H2) & (H3 & H4) & _). auto.
Defined.

(** C5 as stated fails: [ns STAGING] entered over a table filtered by
    [run] changes the schema, keeps the filter and starts no fetch. *)
Lemma ns_keeps_filter :
  let a := completeInput KeyEnter typedNsStaging in
  Config.Schema (cfg a) = "STAGING" /\
  filter (table typedNsStaging) = "run" /\
  filter (table a) = "run" /\
  goroutines a = goroutines typedNsStaging /\
  ~ (filter (table a) = "" /\
     length (goroutines a) = S (length (goroutines typedNsStaging))).
Proof.
  vm_compute. repeat split. intros [H _]. discriminate H.
Qed.

Lemma ns_command_sets_schema_witness :
  "ns STAGING" <> "" /\
  Fields "ns STAGING" = ["ns"; "STAGING"] /\
  oneOf (ToLower "ns") ["ns"; "namespace"; "schema"] = true /\
  TrimSpace "STAGING" <> "" /\
  Config.Schema (cfg (runCommand "ns STAGING" typedNsStaging)) = "STAGING" /\
  Config.Schema (spcs (runCommand "ns STAGING" typedNsStaging)) = "STAGING" /\
  table (runCommand "ns STAGING" typedNsStaging) = table typedNsStaging /\
  filter (table (runCommand "ns STAGING" typedNsStaging))
  = filter (table typedNsStaging).
Proof.
  assert (H1 : "ns STAGING" <> "") by discriminate.
  assert (H2 : Fields "ns STAGING" = ["ns"; "STAGING"])
    by (vm_compute; reflexivity).
  assert (H3 : oneOf (ToLower "ns") ["ns"; "namespace"; "schema"] = true)
    by (vm_compute; reflexivity).
  assert (H4 : TrimSpace "STAGING" <> "") by (vm_compute; discriminate).
  repeat (split; [assumption|]).
  exact (ns_command_sets_schema typedNsStaging "ns STAGING" "ns" "STAGING" []
           H1 H2 H3 H4).
Defined.

(** C6 as stated fails: with the second of three rows selected, setting
    a filter that keeps all three moves the selection to the first. *)
Lemma SetFilter_moves_selection :
  let t := table secondRowSelected in
  GetSelection t = (2, 0) /\
  GoInt.len (filtered (SetFilter "public" t)) = 3 /\
  GetSelection (SetFilter "public" t) = (1, 0) /\
  GetSelection (SetFilter "public" t) <> GetSelection t.
Proof. vm_compute. repeat split. discriminate. Qed.

(** C7 as stated fails: with three rows, page down from the first row
    reaches the third, two rows on, where [max(1, 3/2)] is one. *)
Lemma page_three_rows :
  let a := showing threeRows in
  let n := GoInt.len (filtered (table a)) in
  n = 3 /\ selected a = 1 /\ selected (page 1 a) = 3 /\
  selected (page 1 a) <> Z.min n (Z.max 1 (selected a + Z.max 1 (n / 2))).
Proof. vm_compute. repeat split. discriminate. Qed.

Lemma page_moves_by_half_row_count_witness :
  rendered (table (showing threeRows)) /\
  (1 = 1 \/ 1 = -1) /\
  GoInt.len (filtered (table (showing threeRows))) < 2 ^ 62 /\
  - 2 ^ 62 <= selected (showing threeRows) < 2 ^ 62 /\
  selected (page 1 (showing threeRows)) = 3.
Proof.
  assert (H1 : rendered (table (showing threeRows)))
    by (vm_compute; reflexivity).
  assert (H2 : 1 = 1 \/ 1 = -1) by (left; reflexivity).
  assert (H3 : GoInt.len (filtered (table (showing threeRows))) < 2 ^ 62)
    by (vm_compute; reflexivity).
  assert (H4 : - 2 ^ 62 <= selected (showing threeRows) < 2 ^ 62)
    by (vm_compute; split; [discriminate | reflexivity]).
  repeat (split; [assumption|]).
  generalize (page_moves_by_half_row_count (showing threeRows) 1 H1 H2 H3 H4).
  vm_compute. exact (fun r => r).
Defined.

Lemma whitespace_filter_is_empty_filter_witness :
  forallb asciiSpace (list_ascii_of_string "  ") = true /\
  filtered (SetFilter "  " twoRowTable) = twoRows /\
  filtered (SetFilter "  " twoRowTable) = filtered (SetFilter "" twoRowTable) /\
  tbl (SetFilter "  " twoRowTable) = tbl (SetFilter "" twoRowTable).
Proof.
  assert (H : forallb asciiSpace (list_ascii_of_string "  ") = true)
    by (vm_compute; reflexivity).
  split; [exact H|].
  generalize (whitespace_filter_is_empty_filter twoRowTable "  " H).
  vm_compute. exact (fun r => r).
Defined.

End Cases.

(** ** More on the table *)

Section TableMore.
Import Strings Table Shown.
Context {U : Unicode}.

Lemma SetCell_new row x tv :
  length (Tview.cells tv) = row ->
  Tview.cells (Tview.SetCell row 0 x tv) = (Tview.cells tv ++ [[x]])%list.
Proof.
  intros Hlen. unfold Tview.SetCell. cbn [Tview.cells].
  rewrite Hlen. replace (S row - row)%nat with 1%nat by lia.
  cbn [replicate].
  rewrite lookup_app_r by lia. rewrite Hlen, Nat.sub_diag. cbn.
  rewrite insert_app_r_alt by lia. rewrite Hlen, Nat.sub_diag. reflexivity.
Qed.

Lemma SetCell_next row c x tv g line :
  Tview.cells tv = (g ++ [line])%list -> length g = row -> length line = c ->
  Tview.cells (Tview.SetCell row c x tv) = (g ++ [(line ++ [x])%list])%list.
Proof.
  intros Hc Hg Hl. unfold Tview.SetCell. cbn [Tview.cells].
  rewrite Hc, length_app, Hg. cbn [length].
  replace (S row - (row + 1))%nat with 0%nat by lia. cbn [replicate].
  rewrite app_nil_r.
  rewrite lookup_app_r by lia. rewrite Hg, Nat.sub_diag.
  change (default [] ([line] !! 0%nat)) with line.
  rewrite Hl. replace (S c - c)%nat with 1%nat by lia. cbn [replicate].
  rewrite insert_app_r_alt by lia. rewrite Hg, Nat.sub_diag. cbn.
  f_equal. f_equal.
  rewrite insert_app_r_alt by lia. rewrite Hl, Nat.sub_diag. reflexivity.
Qed.

Lemma setLine_next row c vs tv g line :
  Tview.cells tv = (g ++ [line])%list -> length g = row -> length line = c ->
  Tview.cells (setLine row c vs tv) = (g ++ [(line ++ map pad vs)%list])%list.
Proof.
  revert c tv line. induction vs as [|v vs IH]; intros c tv line Hc Hg Hl;
    cbn [setLine map].
  - now rewrite app_nil_r.
  - rewrite (IH (S c) _ (line ++ [pad v])%list).
    + now rewrite <- app_assoc.
    + apply (SetCell_next row c _ tv g line); assumption.
    + exact Hg.
    + rewrite length_app. cbn [length]. lia.
Qed.

Lemma setLine_new row v vs tv :
  length (Tview.cells tv) = row ->
  Tview.cells (setLine row 0 (v :: vs) tv)
  = (Tview.cells tv ++ [map pad (v :: vs)])%list.
Proof.
  intros Hlen. cbn [setLine].
  rewrite (setLine_next row 1 vs _ (Tview.cells tv) [pad v]); auto.
  apply SetCell_new, Hlen.
Qed.

Lemma setLines_grid r rs tv :
  Forall hasCells rs -> length (Tview.cells tv) = S r ->
  Tview.cells (setLines r rs tv)
  = (Tview.cells tv ++ map (fun row => map pad (Cells row)) rs)%list.
Proof.
  intros Hrs. revert r tv.
  induction Hrs as [|row rs Hrow Hrs IH]; intros r tv Hlen; cbn [setLines map].
  - now rewrite app_nil_r.
  - unfold hasCells in Hrow. destruct (Cells row) as [|v vs] eqn:Hcells;
      [congruence|].
    rewrite IH.
    + rewrite setLine_new by exact Hlen. now rewrite <- app_assoc.
    + rewrite setLine_new by exact Hlen. rewrite length_app. cbn [length]. lia.
Qed.

Lemma render_grid t :
  headers t <> [] -> Forall hasCells (filtered t) ->
  Tview.cells (tbl (render t)) = grid (headers t) (filtered t).
Proof.
  intros Hh Hf. unfold render. cbn [tbl with_tbl].
  assert (Hsel : forall tv (b : bool),
    Tview.cells (if b then Tview.Select 1 0 tv else tv) = Tview.cells tv)
    by (intros tv []; reflexivity).
  rewrite Hsel.
  destruct (headers t) as [|h hs] eqn:Hhs; [congruence|].
  assert (Hhead : Tview.cells (setLine 0 0 (h :: hs) (Tview.Clear (tbl t)))
                  = [map pad (h :: hs)]).
  { rewrite setLine_new by reflexivity. reflexivity. }
  rewrite (setLines_grid 0 _ _ Hf); rewrite Hhead; reflexivity.
Qed.

(** X1: after [SetData] with headers and rows that have cells, and after a
    further [SetFilter], the grid holds the padded header line and one
    padded line per filtered row, nothing else. *)
Theorem table_shows_filtered (hs : list string) (rs : list TableRow)
    (f : string) (t : DataTable) :
  hs <> [] -> Forall hasCells rs ->
  let t1 := SetData hs rs t in
  let t2 := SetFilter f t1 in
  Tview.cells (tbl t1) = grid hs (filtered t1) /\
  Tview.cells (tbl t2) = grid hs (filtered t2).
Proof.
  intros Hh Hr. cbv zeta. split.
  - unfold SetData, applyFilter.
    rewrite render_grid; [reflexivity | exact Hh |].
    cbn [filtered with_filtered rows]. apply Forall_filter_keep, Hr.
  - unfold SetFilter at 1. unfold applyFilter at 1.
    rewrite render_grid; [reflexivity | exact Hh |].
    cbn [filtered with_filtered rows]. apply Forall_filter_keep, Hr.
Qed.

Lemma render_first (t : DataTable) :
  SelectedRow (render t) = head (filtered (render t)) /\
  SelectionInfo (render t) =
    match filtered (render t) with
    | [] => "0/0"
    | _ => "1/" ++ GoInt.itoa (GoInt.len (filtered (render t)))
    end.
Proof.
  pose proof (render_selection t) as Hsel.
  unfold GetSelection, Tview.GetSelection in Hsel.
  unfold SelectedRow, SelectionInfo.
  change (filtered (render t)) with (filtered t).
  destruct (filtered t) as [|r rs] eqn:Hf; [split; reflexivity|].
  assert (Hlen : 0 < GoInt.len (r :: rs))
    by (unfold GoInt.len; cbn [length]; lia).
  destruct (Z.ltb_spec 0 (GoInt.len (r :: rs))); [|lia].
  apply (f_equal fst) in Hsel. cbn [fst] in Hsel. rewrite Hsel.
  destruct (Z.eqb_spec (GoInt.len (r :: rs)) 0); [lia|].
  change (1 <=? 0) with false. cbv iota.
  change (1 - 1) with 0. change (0 <? 0) with false.
  destruct (Z.leb_spec (GoInt.len (r :: rs)) 0); [lia|].
  split; reflexivity.
Qed.

(** X2: after [SetFilter] the selected row is the first filtered row, if
    any, and [SelectionInfo] reports [1/n], or [0/0] when nothing
    matches. *)
Theorem SetFilter_selects_first (f : string) (t : DataTable) :
  SelectedRow (SetFilter f t) = head (filtered (SetFilter f t)) /\
  SelectionInfo (SetFilter f t) =
    match filtered (SetFilter f t) with
    | [] => "0/0"
    | _ => "1/" ++ GoInt.itoa (GoInt.len (filtered (SetFilter f t)))
    end.
Proof.
  unfold SetFilter, applyFilter. apply render_first.
Qed.

Lemma SetData_selection hs rs t :
  GetSelection (SetData hs rs t) =
    if 0 <? GoInt.len (filtered (SetData hs rs t)) then (1, 0)
    else GetSelection t.
Proof. unfold SetData, applyFilter. now rewrite render_selection. Qed.

Lemma SetStatusColumn_selection idx t :
  GetSelection (SetStatusColumn idx t) =
    if 0 <? GoInt.len (filtered t) then (1, 0) else GetSelection t.
Proof. unfold SetStatusColumn. now rewrite render_selection. Qed.

Lemma SetFilter_blank (t : DataTable) :
  filter (SetFilter "" t) = "" /\ rows (SetFilter "" t) = rows t /\
  headers (SetFilter "" t) = headers t /\
  filtered (SetFilter "" t) = rows t.
Proof.
  repeat split.
  unfold SetFilter. rewrite filtered_applyFilter. cbn [rows filter].
  apply (blank_filter_keeps_all {| tbl := tbl t; headers := headers t;
    rows := rows t; filtered := filtered t; filter := filter t;
    statusColumn := statusColumn t |} ""). reflexivity.
Qed.

Lemma setLine_title row c vs tv :
  Tview.title (setLine row c vs tv) = Tview.title tv.
Proof.
  revert c tv. induction vs as [|x vs IH]; intros c tv; cbn [setLine];
    [reflexivity|].
  now rewrite IH.
Qed.

Lemma setLines_title r rs tv :
  Tview.title (setLines r rs tv) = Tview.title tv.
Proof.
  revert r tv. induction rs as [|row rs IH]; intros r tv; cbn [setLines];
    [reflexivity|].
  now rewrite IH, setLine_title.
Qed.

Lemma render_title t : Tview.title (tbl (render t)) = Tview.title (tbl t).
Proof.
  unfold render. cbn [tbl with_tbl].
  destruct (0 <? GoInt.len (filtered t)); cbn [Tview.Select Tview.title];
    now rewrite setLines_title, setLine_title.
Qed.

Lemma SetFilter_title f t :
  Tview.title (tbl (SetFilter f t)) = Tview.title (tbl t).
Proof. unfold SetFilter, applyFilter. now rewrite render_title. Qed.

End TableMore.

(** ** Views, commands and the input field *)

Section ViewFacts.
Import Strings Table UI.
Context {U : Unicode}.

Lemma changed_frame txt a :
  goroutines (changed txt a) = goroutines a /\
  updates (changed txt a) = updates a /\
  loading (changed txt a) = loading a /\
  view (changed txt a) = view a /\
  header (changed txt a) = header a /\
  errorView (changed txt a) = errorView a /\
  filterField (changed txt a) = filterField a /\
  inputMode (changed txt a) = inputMode a /\
  focus (changed txt a) = focus a /\
  activeService (changed txt a) = activeService a /\
  cfg (changed txt a) = cfg a /\ spcs (changed txt a) = spcs a /\
  detailVisible (changed txt a) = detailVisible a /\
  helpVisible (changed txt a) = helpVisible a /\
  bottomPages (changed txt a) = bottomPages a /\
  hints (footer (changed txt a)) = hints (footer a).
Proof.
  unfold changed. destruct (negb _); repeat split.
Qed.

Lemma changed_table txt a :
  table (changed txt a) =
    if InputMode_eqb (inputMode a) inputFilter then SetFilter txt (table a)
    else table a.
Proof.
  unfold changed. destruct (InputMode_eqb _ _); reflexivity.
Qed.

Lemma setView_guard v a :
  (v = viewInstances -> activeService a <> "") ->
  viewKind_eqb v viewInstances && String.eqb (activeService a) "" = false.
Proof.
  intros Hv. destruct v; try reflexivity. cbn [viewKind_eqb andb].
  apply String.eqb_neq. auto.
Qed.

(** What an accepted [setView] leaves alone. *)
Lemma setView_frame v a :
  let a' := setView v a in
  headers (table a') = headers (table a) /\
  rows (table a') = rows (table a) /\
  loading a' = loading a /\ inputMode a' = inputMode a /\
  focus a' = focus a /\ detailVisible a' = detailVisible a /\
  cfg a' = cfg a /\ spcs a' = spcs a /\ activeService a' = activeService a /\
  helpVisible a' = helpVisible a /\ bottomPages a' = bottomPages a.
Proof.
  cbv zeta. unfold setView.
  destruct (viewKind_eqb v viewInstances && _); [repeat split|].
  cbv zeta. unfold filterField_SetText. cbv zeta.
  match goal with |- context [changed "" ?b] => set (B := b) end.
  destruct (changed_frame "" B)
    as (Hg & Hu & Hl & Hvw & Hh & He & Hf & Hi & Hfo & Ha & Hc & Hs & Hd
        & Hhv & Hbp & _).
  pose proof (changed_table "" B) as Ht.
  unfold go.
  cbn [table loading inputMode focus detailVisible cfg spcs activeService
       helpVisible bottomPages with_goroutines].
  rewrite Hl, Hi, Hfo, Ha, Hc, Hs, Hd, Hhv, Hbp, Ht.
  subst B.
  cbn [table loading inputMode focus detailVisible cfg spcs activeService
       helpVisible bottomPages with_view with_header with_table
       with_filterField].
  destruct (InputMode_eqb (inputMode a) inputFilter); repeat split.
Qed.

Lemma setView_accepted (v : viewKind) (a : App) :
  (v = viewInstances -> activeService a <> "") ->
  let a' := setView v a in
  view a' = v /\ header a' = viewName v /\
  Tview.title (tbl (table a')) =
    (if viewKind_eqb v viewInstances
     then " " ++ viewName v ++ " (" ++ activeService a ++ ") "
     else " " ++ viewName v ++ " ") /\
  filter (table a') = "" /\ text (filterField a') = "" /\
  filtered (table a') = rows (table a) /\
  banner a' = banner a /\
  updates a' = updates a /\
  goroutines a' = (goroutines a ++ [GoFetchCurrentView])%list.
Proof.
  intros Hv. cbv zeta. unfold setView.
  rewrite (setView_guard v a Hv). cbv zeta. unfold filterField_SetText.
  cbv zeta.
  assert (Htitle :
    (if viewKind_eqb v viewInstances
        && negb (String.eqb
                   (activeService (with_header (viewName v) (with_view v a)))
                   "")
     then " " ++ viewName v ++ " ("
          ++ activeService (with_header (viewName v) (with_view v a)) ++ ") "
     else " " ++ viewName v ++ " ")
    = (if viewKind_eqb v viewInstances
       then " " ++ viewName v ++ " (" ++ activeService a ++ ") "
       else " " ++ viewName v ++ " ")).
  { cbn [activeService with_header with_view].
    destruct v; try reflexivity. cbn [viewKind_eqb andb].
    destruct (String.eqb_spec (activeService a) "") as [e|]; [|reflexivity].
    exfalso. exact (Hv eq_refl e). }
  rewrite Htitle.
  match goal with |- context [changed "" ?b] => set (B := b) end.
  destruct (changed_frame "" B) as (Hg & Hu & Hl & Hvw & Hh & He & Hf & _).
  pose proof (changed_table "" B) as Ht.
  unfold go, banner.
  cbn [view header table filterField goroutines updates loading errorView
       with_goroutines].
  rewrite Hg, Hu, Hvw, Hh, He, Hf, Ht.
  subst B.
  cbn [view header table filterField goroutines updates loading errorView
       with_view with_header with_table with_filterField inputMode text].
  match goal with |- context [SetFilter "" (SetTitle ?s ?t)] =>
    destruct (SetFilter_blank (SetTitle s t)) as (G1 & G2 & G3 & G4);
    destruct (SetFilter_blank (SetFilter "" (SetTitle s t)))
      as (F1 & F2 & F3 & F4)
  end.
  cbn [SetTitle with_tbl rows headers] in G2, G3, G4.
  rewrite G2 in F2, F4. rewrite G3 in F3.
  destruct (InputMode_eqb (inputMode a) inputFilter).
  - rewrite F1, F4, !SetFilter_title. repeat split.
  - rewrite G1, G4, SetFilter_title. repeat split.
Qed.

(** X3: an accepted [setView] sets view, header tag and title, clears the
    filter and the input text, keeps the rows of the old view, the
    banner and the loading flag, and starts one goroutine for the
    fetch. *)
Theorem setView_switches (v : viewKind) (a : App) :
  (v = viewInstances -> activeService a <> "") ->
  let a' := setView v a in
  view a' = v /\ header a' = viewName v /\
  Tview.title (tbl (table a')) =
    (if viewKind_eqb v viewInstances
     then " " ++ viewName v ++ " (" ++ activeService a ++ ") "
     else " " ++ viewName v ++ " ") /\
  filter (table a') = "" /\ text (filterField a') = "" /\
  rows (table a') = rows (table a) /\
  filtered (table a') = rows (table a) /\
  banner a' = banner a /\ loading a' = loading a /\
  updates a' = updates a /\
  goroutines a' = (goroutines a ++ [GoFetchCurrentView])%list.
Proof.
  intros Hv. cbv zeta.
  destruct (setView_accepted v a Hv) as (H1 & H2 & H3 & H4 & H5 & H6 & H7 & H8 & H9).
  destruct (setView_frame v a) as (_ & F2 & F3 & _).
  repeat split; assumption.
Qed.

Lemma showError_frame msg a :
  let a' := showError msg a in
  table a' = table a /\ loading a' = loading a /\
  inputMode a' = inputMode a /\ focus a' = focus a /\
  detailVisible a' = detailVisible a /\ cfg a' = cfg a /\ spcs a' = spcs a /\
  goroutines a' = goroutines a /\ view a' = view a /\
  activeService a' = activeService a /\
  updates a' = (updates a ++ [UpdSetError msg])%list.
Proof. repeat split. Qed.

(** X4: in the services view, on a selected row with a service name,
    [openInstancesView] makes the name the active service and opens the
    instances view, titled with the name. *)
Theorem openInstancesView_opens (a : App) (row : TableRow)
    (ns name : string) (rest : list string) :
  view a = viewServices ->
  SelectedRow (table a) = Some row ->
  Cells row = ns :: name :: rest ->
  name <> "" ->
  let a' := openInstancesView a in
  activeService a' = name /\ view a' = viewInstances /\
  header a' = "Instances" /\
  Tview.title (tbl (table a')) = " Instances (" ++ name ++ ") " /\
  filter (table a') = "" /\ rows (table a') = rows (table a) /\
  updates a' = updates a /\
  goroutines a' = (goroutines a ++ [GoFetchCurrentView])%list.
Proof.
  intros Hview Hsel Hcells Hname. cbv zeta. unfold openInstancesView.
  rewrite Hview. cbn [viewKind_eqb negb]. rewrite Hsel, Hcells.
  assert (Hv : viewInstances = viewInstances ->
               activeService (with_activeService name a) <> "")
    by (intros _; exact Hname).
  destruct (setView_accepted viewInstances _ Hv)
    as (H1 & H2 & H3 & H4 & _ & _ & _ & H8 & H9).
  destruct (setView_frame viewInstances (with_activeService name a))
    as (_ & F2 & _ & _ & _ & _ & _ & _ & F9 & _ & _).
  repeat split; assumption.
Qed.

(** X5: outside the services view, without a selected row or on a row with
    fewer than two cells, [openInstancesView] only queues a notice. *)
Theorem openInstancesView_refuses (a : App) :
  view a <> viewServices \/ SelectedRow (table a) = None \/
  (exists row, SelectedRow (table a) = Some row /\
               (length (Cells row) < 2)%nat) ->
  let a' := openInstancesView a in
  view a' = view a /\ table a' = table a /\
  activeService a' = activeService a /\ goroutines a' = goroutines a /\
  exists msg, updates a' = (updates a ++ [UpdSetError msg])%list.
Proof.
  intros H. cbv zeta. unfold openInstancesView.
  destruct (viewKind_eqb (view a) viewServices) eqn:Hv; cbn [negb].
  2:{ repeat split. eauto. }
  destruct H as [H | [H | (row & H & Hlen)]].
  - destruct (view a); try discriminate. congruence.
  - rewrite H. repeat split. eauto.
  - rewrite H. destruct (Cells row) as [|c0 [|c1 cs]]; cbn [length] in Hlen;
      try lia; repeat split; eauto.
Qed.

Lemma fetchCurrentView_session a :
  let a' := fetchCurrentView a in
  table a' = table a /\ loading a' = loading a /\
  inputMode a' = inputMode a /\ focus a' = focus a /\
  detailVisible a' = detailVisible a /\ updates a' = updates a /\
  view a' = view a /\ activeService a' = activeService a /\
  errorView a' = errorView a /\ footer a' = footer a /\
  filterField a' = filterField a /\ bottomPages a' = bottomPages a.
Proof.
  cbv zeta. unfold fetchCurrentView.
  destruct (negb _ || _); [repeat split|].
  destruct (loading a) eqn:Hl; repeat split; cbn; auto.
Qed.

Lemma setSchema_frame schema a :
  let a' := setSchema schema a in
  table a' = table a /\ loading a' = loading a /\
  inputMode a' = inputMode a /\ focus a' = focus a /\
  detailVisible a' = detailVisible a /\ bottomPages a' = bottomPages a.
Proof.
  cbv zeta. unfold setSchema.
  destruct (String.eqb (TrimSpace schema) ""); [repeat split|].
  cbv zeta.
  match goal with |- context [fetchCurrentView ?b] =>
    destruct (fetchCurrentView_session b)
      as (-> & -> & -> & -> & -> & _ & _ & _ & _ & _ & _ & ->)
  end.
  repeat split.
Qed.

Lemma toggleHelp_frame a :
  let a' := toggleHelp a in
  table a' = table a /\ loading a' = loading a /\
  inputMode a' = inputMode a /\ focus a' = focus a /\
  detailVisible a' = detailVisible a /\ bottomPages a' = bottomPages a.
Proof.
  cbv zeta. unfold toggleHelp. destruct (helpVisible a); repeat split.
Qed.

Lemma openInstancesView_frame a :
  let a' := openInstancesView a in
  headers (table a') = headers (table a) /\
  rows (table a') = rows (table a) /\
  loading a' = loading a /\ inputMode a' = inputMode a /\
  focus a' = focus a /\ detailVisible a' = detailVisible a /\
  bottomPages a' = bottomPages a.
Proof.
  cbv zeta. unfold openInstancesView.
  destruct (negb _); [repeat split|].
  destruct (SelectedRow (table a)) as [row|]; [|repeat split].
  destruct (Cells row) as [|c0 [|name cs]];
    [repeat split | repeat split |].
  destruct (setView_frame viewInstances (with_activeService name a))
    as (H1 & H2 & H3 & H4 & H5 & H6 & _ & _ & _ & _ & H11).
  repeat split; assumption.
Qed.

Lemma runCommand_frame (cmd : string) (a : App) :
  let a' := runCommand cmd a in
  headers (table a') = headers (table a) /\
  rows (table a') = rows (table a) /\
  loading a' = loading a /\ inputMode a' = inputMode a /\
  focus a' = focus a /\ detailVisible a' = detailVisible a /\
  bottomPages a' = bottomPages a.
Proof.
  cbv zeta. unfold runCommand.
  destruct (String.eqb cmd ""); [repeat split|].
  destruct (Fields cmd) as [|first args]; [repeat split|].
  assert (Hv : forall v,
    headers (table (setView v a)) = headers (table a) /\
    rows (table (setView v a)) = rows (table a) /\
    loading (setView v a) = loading a /\
    inputMode (setView v a) = inputMode a /\
    focus (setView v a) = focus a /\
    detailVisible (setView v a) = detailVisible a /\
    bottomPages (setView v a) = bottomPages a).
  { intros v. destruct (setView_frame v a)
      as (H1 & H2 & H3 & H4 & H5 & H6 & _ & _ & _ & _ & H11).
    repeat split; assumption. }
  repeat (match goal with |- context [if oneOf ?c ?l then _ else _] =>
            destruct (oneOf c l) end; [try apply Hv|]).
  - apply openInstancesView_frame.
  - destruct args as [|schema rest]; [repeat split|].
    destruct (setSchema_frame schema a) as (-> & -> & -> & -> & -> & ->).
    repeat split.
  - destruct (toggleHelp_frame a) as (-> & -> & -> & -> & -> & ->).
    repeat split.
  - repeat split.
Qed.

(** X6: whatever the command, [runCommand] leaves the table's headers and
    rows, the loading flag, the input mode, the focus and the detail
    flag as they were. *)
Theorem runCommand_keeps_rows (cmd : string) (a : App) :
  let a' := runCommand cmd a in
  headers (table a') = headers (table a) /\
  rows (table a') = rows (table a) /\
  loading a' = loading a /\ inputMode a' = inputMode a /\
  focus a' = focus a /\ detailVisible a' = detailVisible a.
Proof.
  cbv zeta.
  destruct (runCommand_frame cmd a) as (H1 & H2 & H3 & H4 & H5 & H6 & _).
  repeat split; assumption.
Qed.

Lemma leaveInput_effect a :
  let a' := leaveInput a in
  inputMode a' = inputNone /\ focus a' = FocusTable /\
  disabled (filterField a') = true /\ label (filterField a') = "" /\
  text (filterField a') = text (filterField a) /\
  hints (footer a') = Join defaultKeyHints "  " /\
  status (footer a') = TrimSpace (SelectionInfo (table a)) /\
  bottomPages a' = match bottomPages a with
                   | Some _ => Some "footer"
                   | None => None
                   end /\
  table a' = table a /\ goroutines a' = goroutines a /\
  updates a' = updates a /\ cfg a' = cfg a /\ spcs a' = spcs a /\
  view a' = view a /\ loading a' = loading a /\
  errorView a' = errorView a /\ detailVisible a' = detailVisible a /\
  activeService a' = activeService a.
Proof.
  cbv zeta. destruct a as [u fo g h ft ev t ff sp cf l hv [pg|] dv v sv im];
    repeat split.
Qed.

(** X7: Enter and Esc end an input mode: no mode, focus on the table, the
    field disabled and unlabelled, the default hints, the footer page,
    and a status that is the selection info alone. *)
Theorem completeInput_leaves (key : Key) (a : App) :
  isEnter key || isEsc key = true ->
  inputMode a <> inputNone ->
  let a' := completeInput key a in
  inputMode a' = inputNone /\ focus a' = FocusTable /\
  disabled (filterField a') = true /\ label (filterField a') = "" /\
  hints (footer a') = Join defaultKeyHints "  " /\
  status (footer a') = TrimSpace (SelectionInfo (table a')) /\
  bottomPages a' = match bottomPages a with
                   | Some _ => Some "footer"
                   | None => None
                   end.
Proof.
  intros Hk Hmode. cbv zeta. unfold completeInput. cbv zeta.
  destruct (inputMode a) eqn:Hm; [congruence| |]; rewrite Hk.
  - match goal with |- context [leaveInput ?b] =>
      destruct (leaveInput_effect b)
        as (H1 & H2 & H3 & H4 & _ & H6 & H7 & H8 & H9 & _);
      assert (Hb : bottomPages b = bottomPages a)
    end.
    { destruct (isEsc key); [|reflexivity].
      cbn [bottomPages with_table]. unfold filterField_SetText. cbv zeta.
      match goal with |- context [changed "" ?b] =>
        destruct (changed_frame "" b) as (_ & _ & _ & _ & _ & _ & _ & _ & _ & _
          & _ & _ & _ & _ & Hb & _) end.
      rewrite Hb. reflexivity. }
    rewrite H9, H8, Hb. auto 10.
  - match goal with |- context [leaveInput ?b] =>
      destruct (leaveInput_effect b)
        as (H1 & H2 & H3 & H4 & _ & H6 & H7 & H8 & H9 & _);
      assert (Hb : bottomPages b = bottomPages a)
    end.
    { unfold filterField_SetText. cbv zeta.
      match goal with |- context [changed "" ?b] =>
        destruct (changed_frame "" b) as (_ & _ & _ & _ & _ & _ & _ & _ & _ & _
          & _ & _ & _ & _ & Hb & _) end.
      rewrite Hb. cbn [bottomPages with_filterField].
      destruct (isEnter key); [|reflexivity].
      apply runCommand_frame. }
    rewrite H9, H8, Hb. auto 10.
Qed.

(** X8: in filter mode Esc clears filter and field and shows all rows,
    Enter keeps the table and the text, Tab and Backtab do nothing. *)
Theorem completeInput_filter (a : App) :
  inputMode a = inputFilter ->
  (let a' := completeInput KeyEsc a in
   filter (table a') = "" /\ filtered (table a') = rows (table a) /\
   rows (table a') = rows (table a) /\ text (filterField a') = "") /\
  (let a' := completeInput KeyEnter a in
   table a' = table a /\ text (filterField a') = text (filterField a)) /\
  completeInput KeyTab a = a /\ completeInput KeyBacktab a = a.
Proof.
  intros Hm. cbv zeta. unfold completeInput. cbv zeta. rewrite Hm.
  cbn [isEsc isEnter orb].
  split; [|split; [|split; reflexivity]].
  - match goal with |- context [leaveInput ?b] =>
      destruct (leaveInput_effect b)
        as (_ & _ & _ & _ & H5 & _ & _ & _ & H9 & _)
    end.
    rewrite H9, H5. cbn [table filterField with_table].
    unfold filterField_SetText. cbv zeta.
    match goal with |- context [changed "" ?b] =>
      destruct (changed_frame "" b) as (_ & _ & _ & _ & _ & _ & Hf & _);
      pose proof (changed_table "" b) as Ht
    end.
    rewrite Hf, Ht. cbn [inputMode with_filterField table filterField text].
    rewrite Hm. cbn [InputMode_eqb].
    destruct (SetFilter_blank (table a)) as (G1 & G2 & G3 & G4).
    destruct (SetFilter_blank (SetFilter "" (table a))) as (F1 & F2 & F3 & F4).
    rewrite F1, F2, F4, G2. auto.
  - destruct (leaveInput_effect a)
      as (_ & _ & _ & _ & H5 & _ & _ & _ & H9 & _).
    auto.
Qed.

(** X9: Esc in command mode discards the command: nothing but the input
    field, the mode, the focus and the footer changes. *)
Theorem completeInput_cancel (a : App) :
  inputMode a = inputCommand ->
  let a' := completeInput KeyEsc a in
  table a' = table a /\ cfg a' = cfg a /\ spcs a' = spcs a /\
  view a' = view a /\ activeService a' = activeService a /\
  goroutines a' = goroutines a /\ updates a' = updates a /\
  loading a' = loading a /\ errorView a' = errorView a /\
  text (filterField a') = "".
Proof.
  intros Hm. cbv zeta. unfold completeInput. cbv zeta. rewrite Hm.
  cbn [isEsc isEnter orb].
  match goal with |- context [leaveInput ?b] =>
    destruct (leaveInput_effect b)
      as (_ & _ & _ & _ & H5 & _ & _ & _ & H9 & H10 & H11 & H12 & H13 & H14
          & H15 & H16 & _ & H18)
  end.
  rewrite H5, H9, H10, H11, H12, H13, H14, H15, H16, H18.
  unfold filterField_SetText. cbv zeta.
  match goal with |- context [changed "" ?b] =>
    destruct (changed_frame "" b)
      as (Hg & Hu & Hl & Hvw & Hh & He & Hf & Hi & Hfo & Ha & Hc & Hs & _);
    pose proof (changed_table "" b) as Ht
  end.
  rewrite Hg, Hu, Hl, Hvw, He, Hf, Ha, Hc, Hs, Ht.
  cbn [inputMode with_filterField]. rewrite Hm. cbn [InputMode_eqb].
  repeat split.
Qed.

(** X10: [activateInput] stores the mode, enables, labels, empties and
    focuses the field and sets the hints; the filter prompt resets the
    table's filter, the command prompt leaves the table alone. *)
Theorem activateInput_prompt (mode : InputMode) (lbl : string) (a : App) :
  let a' := activateInput mode lbl a in
  inputMode a' = mode /\ focus a' = FocusInput /\
  disabled (filterField a') = false /\ label (filterField a') = lbl /\
  text (filterField a') = "" /\
  table a' =
    (if InputMode_eqb mode inputFilter then SetFilter "" (table a)
     else table a) /\
  rows (table a') = rows (table a) /\
  hints (footer a') =
    (if InputMode_eqb mode inputCommand then "enter Run  esc Cancel"
     else "esc Clear  enter Done") /\
  goroutines a' = goroutines a /\ updates a' = updates a /\
  loading a' = loading a.
Proof.
  cbv zeta. unfold activateInput. cbv zeta.
  unfold filterField_SetText. cbv zeta.
  match goal with |- context [changed "" ?b] => set (B := b) end.
  destruct (changed_frame "" B)
    as (Hg & Hu & Hl & Hvw & Hh & He & Hf & Hi & Hfo & Ha & Hc & Hs & Hd
        & Hhv & Hb & _).
  pose proof (changed_table "" B) as Ht.
  unfold SwitchToPage, SetFocus. cbn [bottomPages with_focus].
  rewrite Hb.
  assert (HB : inputMode B = mode /\ table B = table a /\
               goroutines B = goroutines a /\ updates B = updates a /\
               loading B = loading a /\
               filterField B = {| text := ""; label := lbl; disabled := false |})
    by (subst B; repeat split).
  destruct HB as (B1 & B2 & B3 & B4 & B5 & B6).
  rewrite B1, B2 in Ht. rewrite B1 in Hi. rewrite B3 in Hg. rewrite B4 in Hu.
  rewrite B5 in Hl. rewrite B6 in Hf.
  assert (Hrows : rows (table (changed "" B)) = rows (table a)).
  { rewrite Ht. destruct (InputMode_eqb mode inputFilter); reflexivity. }
  clearbody B.
  destruct (bottomPages B); destruct (InputMode_eqb mode inputCommand);
    cbn [inputMode focus filterField table footer goroutines updates loading
         with_footer with_focus with_bottomPages SetHints hints];
    rewrite ?Hi, ?Hf, ?Hg, ?Hu, ?Hl, ?Hrows, ?Ht; repeat split.
Qed.

(** X11: help on, drawn, shows the key help in the banner, on the red
    background of errors; help off, drawn, gives the first state back,
    but for a banner that is now empty. *)
Theorem toggleHelp_round_trip (a : App) :
  helpVisible a = false -> updates a = [] ->
  exists a1,
    run [Draw] (toggleHelp a) = Some a1 /\
    helpVisible a1 = true /\
    Contains (banner a1) "q quit" = true /\
    BackgroundColor (errorView a1) = ColorRed /\
    run [Draw] (toggleHelp a1)
    = Some (with_errorView {| Text := ""; BackgroundColor := StyleBackground |}
              a).
Proof.
  intros Hh Hu.
  destruct a as [u fo g h ft ev t ff sp cf l hv pg dv v sv im].
  cbn [helpVisible updates] in *. subst.
  eexists. split; [reflexivity|].
  split; [reflexivity|]. split; [vm_compute; reflexivity|].
  split; reflexivity.
Qed.

End ViewFacts.

(** ** More on fetching *)

Section FetchMore.
Import Strings Table UI Sched.
Context {U : Unicode}.

Lemma setError_frame msg a :
  let a' := setError msg a in
  table a' = table a /\ loading a' = loading a /\
  goroutines a' = goroutines a /\ updates a' = updates a /\
  inputMode a' = inputMode a /\ focus a' = focus a /\
  detailVisible a' = detailVisible a /\ footer a' = footer a /\
  view a' = view a /\ filterField a' = filterField a.
Proof. repeat split. Qed.

Lemma updateFooterStatus_frame a :
  let a' := updateFooterStatus a in
  table a' = table a /\ loading a' = loading a /\
  goroutines a' = goroutines a /\ updates a' = updates a /\
  inputMode a' = inputMode a /\ focus a' = focus a /\
  detailVisible a' = detailVisible a /\ errorView a' = errorView a /\
  hints (footer a') = hints (footer a) /\ view a' = view a.
Proof. repeat split. Qed.

Lemma fetched_frame data err a :
  let a' := fetched data err a in
  loading a' = loading a /\ goroutines a' = goroutines a /\
  updates a' = updates a /\ inputMode a' = inputMode a /\
  detailVisible a' = detailVisible a /\
  hints (footer a') = hints (footer a) /\ view a' = view a /\
  focus a' =
    (if InputMode_eqb (inputMode a) inputNone && negb (detailVisible a)
     then FocusTable else focus a).
Proof.
  cbv zeta. unfold fetched.
  destruct err as [e|];
    [|destruct (negb (String.eqb (ViewData.warning data) ""))];
    cbn [inputMode detailVisible updateFooterStatus with_footer with_table
         setError with_errorView];
    destruct (InputMode_eqb (inputMode a) inputNone && negb (detailVisible a));
    repeat split.
Qed.

(** The table after a successful fetch *)
Lemma fetched_table data a :
  table (fetched data None a)
  = SetData (ViewData.headers data) (ViewData.rows data)
      (SetStatusColumn (ViewData.statusColumn data) (table a)).
Proof.
  unfold fetched.
  destruct (negb (String.eqb (ViewData.warning data) ""));
    cbn [inputMode detailVisible updateFooterStatus with_footer with_table
         setError with_errorView table];
    destruct (InputMode_eqb (inputMode a) inputNone && negb (detailVisible a));
    reflexivity.
Qed.

(** X12: a fetch that succeeds replaces headers, rows and status column,
    applies the filter that is set, and selects the first row, unless
    the old and the new filtered set are both empty. *)
Theorem fetched_selects_first (data : ViewData.viewData) (a : App) :
  let a' := fetched data None a in
  filter (table a') = filter (table a) /\
  headers (table a') = ViewData.headers data /\
  rows (table a') = ViewData.rows data /\
  statusColumn (table a') = ViewData.statusColumn data /\
  filtered (table a') =
    List.filter (rowMatches (ToLower (TrimSpace (filter (table a)))))
      (ViewData.rows data) /\
  GetSelection (table a') =
    (if (0 <? GoInt.len (filtered (table a')))
        || (0 <? GoInt.len (filtered (table a)))
     then (1, 0) else GetSelection (table a)) /\
  SelectedRow (table a') = head (filtered (table a')).
Proof.
  cbv zeta. rewrite fetched_table.
  split; [reflexivity|]. split; [reflexivity|]. split; [reflexivity|].
  split; [reflexivity|]. split; [reflexivity|].
  split.
  - rewrite SetData_selection, SetStatusColumn_selection.
    destruct (0 <? GoInt.len (filtered (SetData _ _ _))); [reflexivity|].
    reflexivity.
  - unfold SetData, applyFilter. apply render_first.
Qed.

(** X13: a failed fetch is shown on red; an empty one on the alternate row
    background, except in the instances view, where the notice does
    not start with [No items] and is shown on red; one with rows clears
    the banner. *)
Theorem banner_colours (v : viewKind) (service e : string)
    (r : TableRow) (rs : list TableRow) (a b : App) :
  noCall v service = false ->
  BackgroundColor (errorView
    (fetched (fst (loadViewData v service (Failed e) b))
             (snd (loadViewData v service (Failed e) b)) a)) = ColorRed /\
  BackgroundColor (errorView
    (fetched (fst (loadViewData v service (Listed []) b))
             (snd (loadViewData v service (Listed []) b)) a))
  = (if viewKind_eqb v viewInstances then ColorRed else StyleRowAltBg) /\
  errorView
    (fetched (fst (loadViewData v service (Listed (r :: rs)) b))
             (snd (loadViewData v service (Listed (r :: rs)) b)) a)
  = {| Text := ""; BackgroundColor := StyleBackground |}.
Proof.
  intros Hn.
  assert (Hev : forall data err, errorView (fetched data err a) =
    errorView (match err with
      | Some e =>
        setError
          ("Error fetching " ++ ToLower (viewName (view a)) ++ ": " ++ e
           ++ " (Ctrl+r to retry)") a
      | None =>
        if negb (String.eqb (ViewData.warning data) "")
        then setError (ViewData.warning data) a
        else setError "" a
      end)).
  { intros data err. unfold fetched.
    destruct err as [e'|];
      [|destruct (negb (String.eqb (ViewData.warning data) ""))];
      cbn [inputMode detailVisible updateFooterStatus with_footer with_table
           setError with_errorView errorView];
      destruct (InputMode_eqb (inputMode a) inputNone
                && negb (detailVisible a)); reflexivity. }
  rewrite !Hev.
  destruct v; cbn [noCall viewKind_eqb andb] in Hn;
    cbn [loadViewData]; try rewrite Hn; repeat split.
Qed.

Lemma count_snoc {A} (p : A -> bool) l g :
  length (List.filter p (l ++ [g]))
  = (length (List.filter p l) + if p g then 1 else 0)%nat.
Proof.
  rewrite List.filter_app, length_app. cbn [List.filter].
  destruct (p g); reflexivity.
Qed.

Lemma count_delete {A} (p : A -> bool) (l : list A) i g :
  l !! i = Some g ->
  (length (List.filter p (delete i l)) + (if p g then 1 else 0))%nat
  = length (List.filter p l).
Proof.
  intros Hi. rewrite <- (take_drop_middle l i g Hi) at 2.
  rewrite delete_take_drop, !List.filter_app, !length_app.
  cbn [List.filter]. destruct (p g); cbn [length]; lia.
Qed.

Lemma count_insert {A} (p : A -> bool) (l : list A) i g g' :
  l !! i = Some g ->
  (length (List.filter p (<[i:=g']> l)) + (if p g then 1 else 0))%nat
  = (length (List.filter p l) + (if p g' then 1 else 0))%nat.
Proof.
  intros Hi. rewrite <- (take_drop_middle l i g Hi) at 2.
  rewrite insert_take_drop by (eapply lookup_lt_Some; eauto).
  rewrite !List.filter_app, !length_app.
  cbn [List.filter]. destruct (p g), (p g'); cbn [length]; lia.
Qed.

Lemma runUpdate_frame u a :
  let a' := runUpdate u a in
  loading a' = loading a /\ goroutines a' = goroutines a /\
  updates a' = updates a /\ inputMode a' = inputMode a /\
  detailVisible a' = detailVisible a /\
  (focus a' = focus a \/
   focus a' = FocusTable /\ inputMode a = inputNone).
Proof.
  cbv zeta. destruct u as [msg|data err| |frame]; cbn [runUpdate];
    try (repeat split; auto; fail).
  destruct (fetched_frame data err a) as (H1 & H2 & H3 & H4 & H5 & _ & _ & H8).
  repeat split; try assumption.
  rewrite H8. destruct (inputMode a); cbn [InputMode_eqb andb]; auto.
  destruct (negb (detailVisible a)); auto.
Qed.

Lemma fetchCurrentView_counts a : requested a (fetchCurrentView a).
Proof.
  unfold requested, fetchCurrentView.
  destruct (negb _ || _); [auto|].
  destruct (loading a) eqn:Hl; [rewrite Hl; auto|].
  unfold inFlight, pending, go. cbn [loading goroutines with_goroutines].
  rewrite !count_snoc. cbn [isLoading isPending]. rewrite Hl.
  repeat split; lia.
Qed.

Lemma handleCtrlR_counts a : requested a (handleCtrlR a).
Proof.
  unfold handleCtrlR.
  destruct (detailVisible a); [unfold requested; auto|].
  destruct (negb _ && _); [unfold requested; auto|].
  apply fetchCurrentView_counts.
Qed.

Lemma setLoading_counts b a :
  loading (setLoading b a) = b /\
  inFlight (setLoading b a) = inFlight a /\
  pending (setLoading b a) = pending a /\
  (forall i g, goroutines a !! i = Some g ->
               goroutines (setLoading b a) !! i = Some g).
Proof.
  unfold setLoading. cbv zeta.
  destruct (negb (negb (Bool.eqb (loading a) b))); [repeat split; auto|].
  destruct b; [|repeat split; auto].
  unfold inFlight, pending, go. cbn [loading goroutines with_goroutines
    with_loading].
  rewrite !count_snoc. cbn [isLoading isPending].
  repeat split; try lia.
  intros i g Hi. apply lookup_app_l_Some. exact Hi.
Qed.

Lemma step_counts e a a' :
  step e a = Some a' ->
  match e with
  | Tick | CtrlR => requested a a'
  | Draw =>
      loading a' = loading a /\ inFlight a' = inFlight a /\
      pending a' = pending a
  | Sched i _ =>
      match goroutines a !! i with
      | Some GoFetchCurrentView => requested a a'
      | Some GoFetch =>
          loading a' = true /\ inFlight a' = S (inFlight a) /\
          S (pending a') = pending a
      | Some (GoLoadViewData _ _) =>
          loading a' = false /\ S (inFlight a') = inFlight a /\
          pending a' = pending a
      | Some (GoSpin _) =>
          loading a' = loading a /\ inFlight a' = inFlight a /\
          pending a' = pending a
      | None => False
      end
  end.
Proof.
  destruct e as [| | |i r]; cbn [step].
  - intros [= <-]. apply fetchCurrentView_counts.
  - intros [= <-]. apply handleCtrlR_counts.
  - destruct (updates a) as [|u rest]; [discriminate|]. intros [= <-].
    destruct (runUpdate_frame u (with_updates rest a)) as (H1 & H2 & _).
    unfold inFlight, pending. rewrite H1, H2. repeat split.
  - unfold stepGoroutine.
    destruct (goroutines a !! i) as [g|] eqn:Hi; [|discriminate].
    destruct g as [| |v service|idx].
    + intros [= <-].
      pose proof (count_delete isLoading _ _ _ Hi) as Hc1.
      pose proof (count_delete isPending _ _ _ Hi) as Hc2.
      cbn [isLoading isPending] in Hc1, Hc2.
      destruct (fetchCurrentView_counts
                  (with_goroutines (delete i (goroutines a)) a))
        as (H1 & H2 & H3).
      unfold requested. unfold inFlight, pending in *.
      cbn [loading goroutines with_goroutines] in *.
      rewrite H1, H2. repeat split; try lia.
      destruct H3 as [H3 | [H3 H4]]; [left|right; split; auto]; lia.
    + cbv zeta. intros [= <-].
      destruct (setLoading_counts true a) as (H1 & H2 & H3 & H4).
      pose proof (count_insert isLoading _ _ _
        (GoLoadViewData (view (setLoading true a))
           (activeService (setLoading true a))) (H4 _ _ Hi)) as Hc1.
      pose proof (count_insert isPending _ _ _
        (GoLoadViewData (view (setLoading true a))
           (activeService (setLoading true a))) (H4 _ _ Hi)) as Hc2.
      cbn [isLoading isPending] in Hc1, Hc2.
      unfold inFlight, pending in *.
      cbn [loading goroutines with_goroutines] in *.
      repeat split; [exact H1 | lia | lia].
    + destruct (loadViewData v service r a) as [data err]. cbv zeta.
      intros [= <-].
      pose proof (count_delete isLoading _ _ _ Hi) as Hc1.
      pose proof (count_delete isPending _ _ _ Hi) as Hc2.
      cbn [isLoading isPending] in Hc1, Hc2.
      destruct (setLoading_counts false
                  (with_goroutines (delete i (goroutines a)) a))
        as (H1 & H2 & H3 & _).
      unfold inFlight, pending, QueueUpdateDraw in *.
      cbn [loading goroutines with_goroutines with_updates] in *.
      repeat split; [exact H1 | lia | lia].
    + destruct (loading a) eqn:Hl; intros [= <-].
      * pose proof (count_insert isLoading _ _ _ (GoSpin (S idx)) Hi) as Hc1.
        pose proof (count_insert isPending _ _ _ (GoSpin (S idx)) Hi) as Hc2.
        cbn [isLoading isPending] in Hc1, Hc2.
        unfold inFlight, pending, QueueUpdateDraw in *.
        cbn [loading goroutines with_goroutines with_updates] in *.
        repeat split; [exact Hl | lia | lia].
      * pose proof (count_delete isLoading _ _ _ Hi) as Hc1.
        pose proof (count_delete isPending _ _ _ Hi) as Hc2.
        cbn [isLoading isPending] in Hc1, Hc2.
        unfold inFlight, pending in *.
        cbn [loading goroutines with_goroutines] in *.
        repeat split; [exact Hl | lia | lia].
Qed.

(** X14: the loading flag is never set without a fetch in flight, which
    will clear it: this holds after every run from a state where it
    holds. *)
Theorem loading_has_fetch (es : list Event) (a a' : App) :
  (loading a = true -> (1 <= inFlight a)%nat) ->
  run es a = Some a' ->
  loading a' = true -> (1 <= inFlight a')%nat.
Proof.
  revert a. induction es as [|e es IH]; intros a Ha; cbn [run].
  - intros [= <-]. exact Ha.
  - destruct (step e a) as [a1|] eqn:Hs; [|discriminate].
    apply IH. intros Hl1.
    pose proof (step_counts e a a1 Hs) as Hc.
    destruct e as [| | |i r].
    + destruct Hc as (H1 & H2 & _). rewrite H2. apply Ha. congruence.
    + destruct Hc as (H1 & H2 & _). rewrite H2. apply Ha. congruence.
    + destruct Hc as (H1 & H2 & _). rewrite H2. apply Ha. congruence.
    + destruct (goroutines a !! i) as [[| |v service|idx]|]; [| | | |tauto].
      * destruct Hc as (H1 & H2 & _). rewrite H2. apply Ha. congruence.
      * destruct Hc as (_ & H2 & _). lia.
      * destruct Hc as (H1 & _). congruence.
      * destruct Hc as (H1 & H2 & _). rewrite H2. apply Ha. congruence.
Qed.

Lemma singleFlight_step e a a' :
  singleFlight a -> step e a = Some a' ->
  (requests e a = true -> pending a = 0%nat) ->
  singleFlight a'.
Proof.
  intros Ha Hs Hp. pose proof (step_counts e a a' Hs) as Hc.
  unfold singleFlight in *.
  assert (Hreq : requested a a' -> pending a = 0%nat ->
    if loading a' then inFlight a' = 1%nat /\ pending a' = 0%nat
    else inFlight a' = 0%nat /\ (pending a' <= 1)%nat).
  { intros (H1 & H2 & H3) H0. rewrite H1, H2.
    destruct (loading a); destruct H3 as [H3 | [H3 H4]];
      try discriminate; lia. }
  assert (Hsame : loading a' = loading a /\ inFlight a' = inFlight a /\
                  pending a' = pending a ->
    if loading a' then inFlight a' = 1%nat /\ pending a' = 0%nat
    else inFlight a' = 0%nat /\ (pending a' <= 1)%nat).
  { intros (-> & -> & ->). exact Ha. }
  destruct e as [| | |i r]; cbn [requests] in Hp; cbv beta iota in Hc;
    [apply Hreq; [exact Hc | apply Hp; reflexivity]
    |apply Hreq; [exact Hc | apply Hp; reflexivity]
    |apply Hsame; exact Hc |].
  destruct (goroutines a !! i) as [[| |v service|idx]|];
    [apply Hreq; [exact Hc | apply Hp; reflexivity] | |
    |apply Hsame; exact Hc | tauto].
  - destruct Hc as (-> & H2 & H3). destruct (loading a); lia.
  - destruct Hc as (-> & H2 & H3). destruct (loading a); lia.
Qed.

(** X15: when every fetch goroutine reaches [setLoading(true)] before the
    next call of [fetchCurrentView], at most one fetch is in flight, and
    the flag is set exactly then. *)
Theorem prompt_start_single_flight (es : list Event) (a a' : App) :
  singleFlight a -> prompt es a -> run es a = Some a' ->
  singleFlight a' /\ (inFlight a' <= 1)%nat.
Proof.
  revert a. induction es as [|e es IH]; intros a Ha Hp; cbn [run].
  - intros [= <-]. split; [exact Ha|].
    unfold singleFlight in Ha. destruct (loading a); lia.
  - cbn [prompt] in Hp. destruct Hp as [Hp Hrest].
    destruct (step e a) as [a1|] eqn:Hs; [|discriminate].
    apply IH; [|exact Hrest].
    exact (singleFlight_step e a a1 Ha Hs Hp).
Qed.

Lemma stepGoroutine_mode i r a a' :
  stepGoroutine i r a = Some a' ->
  focus a' = focus a /\ inputMode a' = inputMode a.
Proof.
  unfold stepGoroutine.
  destruct (goroutines a !! i) as [[| |v service|idx]|]; [| | | |discriminate].
  - intros [= <-].
    destruct (fetchCurrentView_session
                (with_goroutines (delete i (goroutines a)) a))
      as (_ & _ & -> & -> & _).
    split; reflexivity.
  - cbv zeta. intros [= <-]. unfold setLoading. cbv zeta.
    destruct (negb (negb _)); split; reflexivity.
  - destruct (loadViewData v service r a) as [data err]. cbv zeta.
    intros [= <-]. unfold setLoading. cbv zeta.
    destruct (negb (negb _)); split; reflexivity.
  - destruct (loading a); intros [= <-]; split; reflexivity.
Qed.

Lemma mutate_mode m a :
  focus (mutate m a) = focus a /\ inputMode (mutate m a) = inputMode a.
Proof.
  destruct m as [delta|d| |]; cbn [mutate]; unfold move, page, selectRow;
    try (split; reflexivity).
  destruct (GetRowCount (table a) <=? 1); split; reflexivity.
Qed.

Lemma activateInput_mode mode lbl a :
  inputMode (activateInput mode lbl a) = mode /\
  focus (activateInput mode lbl a) = FocusInput.
Proof.
  destruct a as [u fo g h ft ev t ff sp cf l hv [pg|] dv v sv im];
    destruct mode; split; reflexivity.
Qed.

(** X16: the input field has the focus exactly while an input mode is on;
    every step, key handler and command keeps it so. *)
Theorem input_focus_invariant (a : App) :
  inputHasFocus a ->
  (forall e a', step e a = Some a' -> inputHasFocus a') /\
  (forall key, inputHasFocus (completeInput key a)) /\
  (forall mode lbl,
     mode <> inputNone -> inputHasFocus (activateInput mode lbl a)) /\
  (forall m, inputHasFocus (mutate m a)) /\
  (forall v, inputHasFocus (setView v a)) /\
  (forall cmd, inputHasFocus (runCommand cmd a)).
Proof.
  unfold inputHasFocus. intros Ha.
  assert (Hsame : forall a', focus a' = focus a -> inputMode a' = inputMode a ->
    focus a' = FocusInput <-> inputMode a' <> inputNone)
    by (intros a' -> ->; exact Ha).
  assert (Hleft : forall b, focus (leaveInput b) = FocusInput <->
                            inputMode (leaveInput b) <> inputNone).
  { intros b. destruct (leaveInput_effect b) as (-> & -> & _).
    split; [discriminate | congruence]. }
  split; [|split; [|split; [|split; [|split]]]].
  - intros e a' Hs. destruct e as [| | |i r]; cbn [step] in Hs.
    + injection Hs as <-.
      destruct (fetchCurrentView_session a) as (_ & _ & H1 & H2 & _). auto.
    + injection Hs as <-. unfold handleCtrlR.
      destruct (detailVisible a); [exact Ha|].
      destruct (negb _ && _); [exact Ha|].
      destruct (fetchCurrentView_session a) as (_ & _ & H1 & H2 & _). auto.
    + destruct (updates a) as [|u rest]; [discriminate|].
      injection Hs as <-.
      destruct (runUpdate_frame u (with_updates rest a))
        as (_ & _ & _ & H4 & _ & [H6 | [H6 H7]]).
      * auto.
      * rewrite H4, H6. cbn [inputMode with_updates] in *. rewrite H7.
        split; [discriminate | congruence].
    + destruct (stepGoroutine_mode i r a a' Hs). auto.
  - intros key. unfold completeInput. cbv zeta.
    destruct (inputMode a) eqn:Hm; [rewrite <- Hm in *; exact Ha| |].
    + destruct (isEnter key || isEsc key) eqn:Hk; [apply Hleft|].
      destruct key; try discriminate; cbn [isEsc]; rewrite <- Hm in *;
        exact Ha.
    + destruct (isEnter key || isEsc key) eqn:Hk; [apply Hleft|].
      destruct key; try discriminate; cbn [isEnter]; rewrite <- Hm in *;
        exact Ha.
  - intros mode lbl Hmode.
    destruct (activateInput_mode mode lbl a) as [-> ->]. tauto.
  - intros m. destruct (mutate_mode m a). auto.
  - intros v. destruct (setView_frame v a) as (_ & _ & _ & H4 & H5 & _). auto.
  - intros cmd.
    destruct (runCommand_frame cmd a) as (_ & _ & _ & H4 & H5 & _). auto.
Qed.

Lemma refresh_cycle_run (a : App) (rs : list TableRow) :
  quiescent a ->
  run [Tick; Sched 0 (Listed []); Sched 0 (Listed rs); Sched 0 (Listed []);
       Draw; Draw] a
  = Some (runUpdate
            (UpdFetched
               (fst (loadViewData (view a) (activeService a) (Listed rs) a))
               (snd (loadViewData (view a) (activeService a) (Listed rs) a)))
            (runUpdate UpdFooterDefault a)).
Proof.
  unfold quiescent. intros (Hm & Hd & Hl & Hg & Hu).
  destruct a as [u fo g h ft ev t ff sp cf l hv pg dv v sv im].
  cbn [inputMode detailVisible loading goroutines updates view activeService]
    in *. subst.
  cbv [run step stepGoroutine fetchCurrentView go setLoading QueueUpdateDraw
       runUpdate updateFooterStatus loadViewData listing
       with_updates with_goroutines with_loading with_footer
       updates focus goroutines header footer errorView table filterField
       spcs cfg loading helpVisible bottomPages detailVisible view
       activeService inputMode
       InputMode_eqb negb orb andb Bool.eqb fst snd
       lookup list_lookup insert list_insert delete list_delete app].
  destruct v; try reflexivity.
  destruct (String.eqb sv ""); reflexivity.
Qed.
Lemma loadViewData_rows v service rs b :
  noCall v service = false ->
  snd (loadViewData v service (Listed rs) b) = None /\
  ViewData.rows (fst (loadViewData v service (Listed rs) b)) = rs /\
  ViewData.headers (fst (loadViewData v service (Listed rs) b))
  = viewHeaders v.
Proof.
  intros Hn. destruct v; cbn [noCall viewKind_eqb andb] in Hn;
    cbn [loadViewData]; try rewrite Hn; repeat split.
Qed.

(** X17: one refresh from rest to rest: tick, fetch, answer, spinner exit
    and two draws leave a state at rest that shows the listed rows
    under the view's headers. *)
Theorem refresh_cycle (a : App) (rs : list TableRow) :
  quiescent a -> noCall (view a) (activeService a) = false ->
  exists a',
    run [Tick; Sched 0 (Listed []); Sched 0 (Listed rs); Sched 0 (Listed []);
         Draw; Draw] a = Some a' /\
    quiescent a' /\
    rows (table a') = rs /\ headers (table a') = viewHeaders (view a) /\
    view a' = view a /\ focus a' = FocusTable /\
    hints (footer a') = Join defaultKeyHints "  " /\
    banner a' =
      ViewData.warning
        (fst (loadViewData (view a) (activeService a) (Listed rs) a)).
Proof.
  intros Hq Hn. eexists. split; [apply refresh_cycle_run, Hq|].
  destruct Hq as (Hm & Hd & Hl & Hg & Hu).
  destruct (loadViewData_rows _ _ rs a Hn) as (He & Hrows & Hhs).
  cbn [runUpdate]. rewrite He.
  set (data := fst (loadViewData (view a) (activeService a) (Listed rs) a))
    in *.
  set (a1 := updateFooterStatus
               (with_footer (SetHints defaultKeyHints (footer a)) a)).
  destruct (fetched_frame data None a1)
    as (F1 & F2 & F3 & F4 & F5 & F6 & F7 & F8).
  destruct (fetched_ok data a1) as (Hb & Hr).
  unfold quiescent. rewrite F1, F2, F3, F4, F5, F6, F7, F8, Hb, Hr.
  rewrite fetched_table.
  subst a1.
  cbn [inputMode detailVisible loading goroutines updates view footer hints
       updateFooterStatus with_footer SetHints SetStatus headers SetData].
  rewrite Hm, Hd, Hl, Hg, Hu. cbn [InputMode_eqb negb andb].
  repeat split; assumption.
Qed.

End FetchMore.

(** ** Validation, the environment file and the detail pane *)

Section ConfigMore.
Import Strings Config ConfigFile.

(** X18: [Validate] accepts exactly the configurations with an account, a
    user, a password or a key path, and a key path, if any, that
    [os.Stat] finds. *)
Theorem Validate_accepts (stat : string -> option string) (c : Config) :
  Validate stat c = None <->
  Account c <> "" /\ User c <> "" /\
  (Password c <> "" \/ PrivateKeyPath c <> "") /\
  (PrivateKeyPath c <> "" -> stat (PrivateKeyPath c) = None).
Proof.
  unfold Validate.
  destruct (String.eqb_spec (Account c) "") as [Ha|Ha];
    [split; [discriminate | tauto]|].
  destruct (String.eqb_spec (User c) "") as [Hu|Hu];
    [split; [discriminate | tauto]|].
  destruct (String.eqb_spec (Password c) "") as [Hp|Hp];
    destruct (String.eqb_spec (PrivateKeyPath c) "") as [Hk|Hk];
    cbn [andb negb].
  - split; [discriminate | tauto].
  - destruct (stat (PrivateKeyPath c)) as [err|].
    + split; [discriminate|]. intros (_ & _ & _ & H). discriminate (H Hk).
    + tauto.
  - tauto.
  - destruct (stat (PrivateKeyPath c)) as [err|].
    + split; [discriminate|]. intros (_ & _ & _ & H). discriminate (H Hk).
    + tauto.
Qed.

(** What [Validate] has checked when it returns no error. *)
Lemma Validate_checked (stat : string -> option string) (c : Config) :
  Validate stat c = None ->
  Account c <> "" /\ User c <> "" /\
  (Password c <> "" \/ PrivateKeyPath c <> "") /\
  (PrivateKeyPath c <> "" -> stat (PrivateKeyPath c) = None).
Proof.
  unfold Validate.
  destruct (String.eqb_spec (Account c) ""); [discriminate|].
  destruct (String.eqb_spec (User c) ""); [discriminate|].
  destruct (String.eqb_spec (Password c) "");
    destruct (String.eqb_spec (PrivateKeyPath c) ""); cbn [andb negb];
    try discriminate; try tauto;
    destruct (stat (PrivateKeyPath c)); try discriminate; tauto.
Qed.

Lemma pick_nonempty (b o : string) :
  b <> "" -> (if negb (String.eqb o "") then o else b) <> "".
Proof.
  intros Hb. destruct (String.eqb_spec o ""); cbn [negb]; assumption.
Qed.

(** X19: overrides cannot invalidate a valid configuration, unless they
    name a key file that is missing. *)
Theorem merged_config_stays_valid (stat : string -> option string)
    (base overrides : Config) :
  Validate stat base = None ->
  (PrivateKeyPath overrides <> "" ->
   stat (PrivateKeyPath overrides) = None) ->
  Validate stat (MergeOverrides base overrides) = None.
Proof.
  intros Hb Ho. apply Validate_checked in Hb as (Ha & Hu & Hp & Hk).
  unfold Validate, MergeOverrides. cbv zeta.
  cbn [Account User Password PrivateKeyPath].
  destruct (String.eqb_spec (Account overrides) "");
    destruct (String.eqb_spec (User overrides) "");
    destruct (String.eqb_spec (Password overrides) "");
    destruct (String.eqb_spec (PrivateKeyPath overrides) "");
    cbn [negb];
    repeat match goal with
    | |- context [String.eqb ?x ""] =>
        destruct (String.eqb_spec x ""); try congruence; cbn [andb negb]
    end;
    try (rewrite Ho by assumption); try (rewrite Hk by assumption);
    try reflexivity; try tauto.
Qed.

(** X20: [MergeOverrides] is associative and idempotent, and the zero
    configuration is neutral on the left as well. *)
Theorem MergeOverrides_monoid (a b c : Config) :
  MergeOverrides (MergeOverrides a b) c = MergeOverrides a (MergeOverrides b c)
  /\ MergeOverrides a a = a /\ MergeOverrides zero a = a.
Proof.
  destruct a as [a1 a2 a3 a4 a5 a6 a7 a8 a9],
           b as [b1 b2 b3 b4 b5 b6 b7 b8 b9],
           c as [c1 c2 c3 c4 c5 c6 c7 c8 c9].
  unfold MergeOverrides, zero. cbv zeta.
  cbn [Account User Password PrivateKeyPath Database Schema Warehouse
       Context_ Debug].
  assert (Hassoc : forall x y z : string,
    (if negb (String.eqb z "") then z
     else if negb (String.eqb y "") then y else x)
    = (if negb (String.eqb
                  (if negb (String.eqb z "") then z else y) "")
       then (if negb (String.eqb z "") then z else y) else x)).
  { intros x y z. destruct (String.eqb_spec z "") as [->|Hz]; cbn [negb].
    - reflexivity.
    - destruct (String.eqb_spec z ""); [congruence | reflexivity]. }
  assert (Hidem : forall x : string,
    (if negb (String.eqb x "") then x else x) = x)
    by (intros x; destruct (negb _); reflexivity).
  assert (Hleft : forall x : string,
    (if negb (String.eqb x "") then x else "") = x).
  { intros x. destruct (String.eqb_spec x "") as [->|]; reflexivity. }
  split; [|split].
  - rewrite !Hassoc. f_equal. destruct c9, b9, a9; reflexivity.
  - rewrite !Hidem. f_equal. destruct a9; reflexivity.
  - rewrite !Hleft. f_equal. destruct a9; reflexivity.
Qed.

End ConfigMore.

Section EnvFacts.
Import Strings ConfigFile Os.
Context {U : Unicode}.

Lemma LookupEnv_filter_other (env : Env) (key k : string) :
  k <> key ->
  LookupEnv (List.filter (fun kv => negb (String.eqb (fst kv) key)) env) k
  = LookupEnv env k.
Proof.
  intros Hk. induction env as [|[k' v'] env IH]; [reflexivity|].
  cbn [List.filter fst LookupEnv].
  destruct (String.eqb_spec k' key) as [->|Hne]; cbn [negb LookupEnv].
  - destruct (String.eqb_spec key k); [congruence | exact IH].
  - destruct (String.eqb_spec k' k); [reflexivity | exact IH].
Qed.

Lemma LookupEnv_Setenv (env : Env) (key val k : string) :
  LookupEnv (Setenv key val env) k = LookupEnv env k \/
  k = key /\ LookupEnv (Setenv key val env) k = Some val.
Proof.
  unfold Setenv. destruct (_ || _); [auto|].
  cbn [LookupEnv]. destruct (String.eqb_spec key k) as [->|Hne]; [auto|].
  left. apply LookupEnv_filter_other. congruence.
Qed.

(** What one line can do to one variable: nothing, or set it, when it
    was unset or empty, to a value that is not empty. *)
Lemma loadEnvLine_lookup (line : string) (env : Env) (k : string) :
  LookupEnv (loadEnvLine line env) k = LookupEnv env k \/
  (LookupEnv env k = None \/ LookupEnv env k = Some "") /\
  exists val, val <> "" /\ LookupEnv (loadEnvLine line env) k = Some val.
Proof.
  unfold loadEnvLine. cbv zeta.
  destruct (_ || _); [auto|].
  destruct (Bytes.SplitN2 (TrimSpace line) "=") as [|p [|q [|r rest]]]; auto.
  destruct (String.eqb_spec (TrimSpace p) "") as [|Hkey]; cbn [orb]; [auto|].
  destruct (String.eqb_spec (TrimSpace q) "") as [|Hval]; [auto|].
  destruct (LookupEnv env (TrimSpace p)) as [existing|] eqn:Hex.
  - destruct (String.eqb_spec existing "") as [->|]; cbn [negb]; [|auto].
    destruct (LookupEnv_Setenv env (TrimSpace p) (TrimSpace q) k)
      as [H | [-> H]]; [auto|].
    right. split; [auto | eauto].
  - destruct (LookupEnv_Setenv env (TrimSpace p) (TrimSpace q) k)
      as [H | [-> H]]; [auto|].
    right. split; [auto | eauto].
Qed.

(** X21: a variable that is set and not empty keeps its value, whatever the
    file says. *)
Theorem loadEnvOverrides_keeps_set (data : option string) (env : Env)
    (k v : string) :
  LookupEnv env k = Some v -> v <> "" ->
  LookupEnv (loadEnvOverrides data env) k = Some v.
Proof.
  intros Hk Hv. destruct data as [d|]; [|exact Hk]. cbn [loadEnvOverrides].
  revert env Hk. induction (Bytes.Split d "010") as [|line ls IH];
    intros env Hk; cbn [fold_left]; [exact Hk|].
  apply IH.
  destruct (loadEnvLine_lookup line env k) as [-> | [[H | H] _]];
    [exact Hk | congruence | congruence].
Qed.


End EnvFacts.

Section ProviderFacts.
Import Strings Provider.
Context {U : Unicode}.

(** X23: [fallback] returns the first value that is not blank, as it is. *)
Theorem fallback_first_nonblank (pre post : list string) (v : string) :
  Forall (fun x => TrimSpace x = "") pre ->
  TrimSpace v <> "" ->
  fallback (pre ++ v :: post) = v.
Proof.
  intros Hpre Hv. induction Hpre as [|x pre Hx _ IH]; cbn [app fallback].
  - destruct (String.eqb_spec (TrimSpace v) ""); [congruence | reflexivity].
  - rewrite Hx. exact IH.
Qed.

(** X24: [fallback] returns the empty string or one of its arguments that
    is not blank. *)
Theorem fallback_never_blank (values : list string) :
  fallback values = "" \/
  In (fallback values) values /\ TrimSpace (fallback values) <> "".
Proof.
  induction values as [|v rest IH]; cbn [fallback]; [auto|].
  destruct (String.eqb_spec (TrimSpace v) "") as [|Hv]; cbn [negb].
  - destruct IH as [IH | [IH1 IH2]]; [auto|]. right. split; [now right | auto].
  - right. split; [now left | exact Hv].
Qed.

End ProviderFacts.

Section DetailFacts.
Import Strings Table Detail.
Context {U : Unicode}.

Lemma mapGet_mapSet (k k' v : string) (m : GoMap) :
  mapGet k' (mapSet k v m) = if String.eqb k k' then Some v else mapGet k' m.
Proof.
  induction m as [|[x y] m IH]; cbn [mapSet mapGet].
  - destruct (String.eqb k k'); reflexivity.
  - destruct (String.eqb_spec x k) as [->|Hx]; cbn [mapGet].
    + destruct (String.eqb k k'); reflexivity.
    + destruct (String.eqb_spec x k') as [->|Hx'].
      * destruct (String.eqb_spec k k'); [congruence | reflexivity].
      * exact IH.
Qed.

Lemma fillFrom_get (hs cells : list string) (out : GoMap) (k : string) :
  ~ In k hs -> mapGet k (fillFrom hs cells out) = mapGet k out.
Proof.
  revert cells out. induction hs as [|h hs IH]; intros cells out Hk;
    [reflexivity|].
  destruct cells as [|c cs]; [reflexivity|]. cbn [fillFrom].
  rewrite IH by (intros Hin; apply Hk; now right).
  rewrite mapGet_mapSet.
  destruct (String.eqb_spec h k); [|reflexivity].
  exfalso. apply Hk. now left.
Qed.

Lemma fillFrom_lookup (hs cells : list string) (out : GoMap) (i : nat)
    (h : string) :
  List.NoDup hs -> hs !! i = Some h ->
  mapGet h (fillFrom hs cells out)
  = match cells !! i with Some c => Some c | None => mapGet h out end.
Proof.
  intros Hnd. revert cells out i.
  induction Hnd as [|x hs Hx Hnd IH]; intros cells out i Hi;
    [discriminate|].
  destruct cells as [|c cs]; [reflexivity|].
  cbn [fillFrom]. destruct i as [|i]; cbn [lookup list_lookup] in *.
  - injection Hi as ->. rewrite fillFrom_get by exact Hx.
    rewrite mapGet_mapSet, String.eqb_refl. reflexivity.
  - rewrite (IH cs _ i Hi). destruct (cs !! i); [reflexivity|].
    rewrite mapGet_mapSet.
    destruct (String.eqb_spec x h) as [->|]; [|reflexivity].
    exfalso. apply Hx. apply list_elem_of_In.
    eapply list_elem_of_lookup_2. exact Hi.
Qed.

(** X25: with headers that differ, the map of a row has the i-th cell under
    the i-th header, and nothing under a header without a cell. *)
Theorem mapFromRow_lookup (row : TableRow) (hs : list string) (i : nat)
    (h : string) :
  List.NoDup hs -> hs !! i = Some h ->
  mapGet h (mapFromRow row hs) = Cells row !! i.
Proof.
  intros Hnd Hi. unfold mapFromRow.
  rewrite (fillFrom_lookup hs (Cells row) [] i h Hnd Hi).
  destruct (Cells row !! i); reflexivity.
Qed.






End DetailFacts.

(** ** The theorems above, at concrete inputs *)

Section MoreCases.
Import Strings Table UI Examples Shown Sched Samples.
Existing Instance asciiText.

Lemma table_shows_filtered_witness :
  ["NAME"; "STATUS"] <> [] /\ Forall hasCells twoRows /\
  Tview.cells (tbl (SetFilter "run" twoRowTable))
  = [[" NAME "; " STATUS "]; [" alpha "; " running "]].
Proof.
  assert (H1 : ["NAME"; "STATUS"] <> []) by discriminate.
  assert (H2 : Forall hasCells twoRows)
    by (repeat constructor; discriminate).
  split; [exact H1|]. split; [exact H2|].
  generalize (table_shows_filtered ["NAME"; "STATUS"] twoRows "run"
                NewDataTable H1 H2).
  vm_compute. intros [_ H]. exact H.
Defined.

Lemma setView_switches_witness :
  (viewPools = viewInstances -> activeService (showing threeRows) <> "") /\
  view (setView viewPools (showing threeRows)) = viewPools /\
  rows (table (setView viewPools (showing threeRows))) = threeRows /\
  goroutines (setView viewPools (showing threeRows)) = [GoFetchCurrentView].
Proof.
  assert (H : viewPools = viewInstances ->
              activeService (showing threeRows) <> "")
    by (intros E; discriminate E).
  split; [exact H|].
  generalize (setView_switches viewPools (showing threeRows) H).
  vm_compute. intros (H1 & _ & _ & _ & _ & H6 & _ & _ & _ & _ & H11). auto.
Defined.

Lemma openInstancesView_opens_witness :
  view (showing threeRows) = viewServices /\
  SelectedRow (table (showing threeRows))
  = Some {| Cells := ["PUBLIC"; "alpha"; "RUNNING"; "pool"; "1d"] |} /\
  "alpha" <> "" /\
  activeService (openInstancesView (showing threeRows)) = "alpha" /\
  Tview.title (tbl (table (openInstancesView (showing threeRows))))
  = " Instances (alpha) ".
Proof.
  assert (H1 : view (showing threeRows) = viewServices)
    by (vm_compute; reflexivity).
  assert (H2 : SelectedRow (table (showing threeRows))
               = Some {| Cells := ["PUBLIC"; "alpha"; "RUNNING"; "pool"; "1d"] |})
    by (vm_compute; reflexivity).
  assert (H3 : "alpha" <> "") by discriminate.
  repeat (split; [assumption|]).
  generalize (openInstancesView_opens (showing threeRows) _ "PUBLIC" "alpha"
                ["RUNNING"; "pool"; "1d"] H1 H2 eq_refl H3).
  vm_compute. intros (E1 & _ & _ & E4 & _). auto.
Defined.

Lemma openInstancesView_refuses_witness :
  SelectedRow (table showingNothing) = None /\
  view (openInstancesView showingNothing) = viewServices /\
  goroutines (openInstancesView showingNothing) = [].
Proof.
  assert (H : SelectedRow (table showingNothing) = None)
    by (vm_compute; reflexivity).
  split; [exact H|].
  generalize (openInstancesView_refuses showingNothing
                (or_intror (or_introl H))).
  vm_compute. intros (E1 & _ & _ & E4 & _). auto.
Defined.

Lemma completeInput_leaves_witness :
  isEnter KeyEnter || isEsc KeyEnter = true /\
  inputMode typedNsStaging <> inputNone /\
  inputMode (completeInput KeyEnter typedNsStaging) = inputNone /\
  focus (completeInput KeyEnter typedNsStaging) = FocusTable /\
  status (footer (completeInput KeyEnter typedNsStaging)) = "1/2".
Proof.
  assert (H1 : isEnter KeyEnter || isEsc KeyEnter = true) by reflexivity.
  assert (H2 : inputMode typedNsStaging <> inputNone)
    by (vm_compute; discriminate).
  split; [exact H1|]. split; [exact H2|].
  generalize (completeInput_leaves KeyEnter typedNsStaging H1 H2).
  vm_compute. intros (E1 & E2 & _ & _ & _ & E6 & _). auto.
Defined.

Lemma completeInput_filter_witness :
  inputMode typedRun = inputFilter /\
  filter (table typedRun) = "run" /\
  filter (table (completeInput KeyEsc typedRun)) = "" /\
  filtered (table (completeInput KeyEsc typedRun)) = threeRows /\
  table (completeInput KeyEnter typedRun) = table typedRun.
Proof.
  assert (H : inputMode typedRun = inputFilter) by (vm_compute; reflexivity).
  split; [exact H|]. split; [vm_compute; reflexivity|].
  generalize (completeInput_filter typedRun H).
  vm_compute. intros ((E1 & E2 & _) & (E3 & _) & _). auto.
Defined.

Lemma completeInput_cancel_witness :
  inputMode typedNsStaging = inputCommand /\
  text (filterField typedNsStaging) = "ns STAGING" /\
  cfg (completeInput KeyEsc typedNsStaging) = public /\
  text (filterField (completeInput KeyEsc typedNsStaging)) = "".
Proof.
  assert (H : inputMode typedNsStaging = inputCommand)
    by (vm_compute; reflexivity).
  split; [exact H|]. split; [vm_compute; reflexivity|].
  generalize (completeInput_cancel typedNsStaging H).
  vm_compute. intros (_ & E2 & _ & _ & _ & _ & _ & _ & _ & E10). auto.
Defined.

Lemma toggleHelp_round_trip_witness :
  helpVisible (showing threeRows) = false /\
  updates (showing threeRows) = [] /\
  exists a1,
    run [Draw] (toggleHelp (showing threeRows)) = Some a1 /\
    BackgroundColor (errorView a1) = ColorRed /\
    run [Draw] (toggleHelp a1) = Some (showing threeRows).
Proof.
  assert (H1 : helpVisible (showing threeRows) = false)
    by (vm_compute; reflexivity).
  assert (H2 : updates (showing threeRows) = []) by (vm_compute; reflexivity).
  split; [exact H1|]. split; [exact H2|].
  destruct (toggleHelp_round_trip (showing threeRows) H1 H2)
    as (a1 & E1 & _ & _ & E4 & E5).
  exists a1. split; [exact E1|]. split; [exact E4|].
  rewrite E5. vm_compute. reflexivity.
Defined.

Lemma banner_colours_witness :
  noCall viewInstances "alpha" = false /\
  BackgroundColor (errorView
    (fetched (fst (loadViewData viewInstances "alpha" (Listed []) started))
             (snd (loadViewData viewInstances "alpha" (Listed []) started))
             started)) = ColorRed.
Proof.
  assert (H : noCall viewInstances "alpha" = false) by reflexivity.
  split; [exact H|].
  generalize (banner_colours viewInstances "alpha" "timeout"
                {| Cells := ["i-0"] |} [] started started H).
  vm_compute. intros (_ & E & _). exact E.
Defined.

Lemma loading_has_fetch_witness :
  (loading started = true -> (1 <= inFlight started)%nat) /\
  run [Sched 0 (Listed []); Sched 0 (Listed [])] started = Some fetching /\
  loading fetching = true /\
  (1 <= inFlight fetching)%nat.
Proof.
  assert (H1 : loading started = true -> (1 <= inFlight started)%nat)
    by (vm_compute; discriminate).
  assert (H2 : run [Sched 0 (Listed []); Sched 0 (Listed [])] started
               = Some fetching) by (vm_compute; reflexivity).
  assert (H3 : loading fetching = true) by (vm_compute; reflexivity).
  repeat (split; [assumption|]).
  exact (loading_has_fetch _ started fetching H1 H2 H3).
Defined.

Lemma prompt_start_single_flight_witness :
  singleFlight started /\
  prompt [Sched 0 (Listed []); Sched 0 (Listed []); Tick; CtrlR] started /\
  run [Sched 0 (Listed []); Sched 0 (Listed []); Tick; CtrlR] started
  = Some fetching /\
  (inFlight fetching <= 1)%nat.
Proof.
  assert (H1 : singleFlight started)
    by (vm_compute; split; [reflexivity | repeat constructor]).
  assert (H2 : prompt [Sched 0 (Listed []); Sched 0 (Listed []); Tick; CtrlR]
                 started)
    by (vm_compute; repeat split; intros; try reflexivity; discriminate).
  assert (H3 : run [Sched 0 (Listed []); Sched 0 (Listed []); Tick; CtrlR]
                 started = Some fetching) by (vm_compute; reflexivity).
  repeat (split; [assumption|]).
  exact (proj2 (prompt_start_single_flight _ started fetching H1 H2 H3)).
Defined.

Lemma input_focus_invariant_witness :
  inputHasFocus typedNsStaging /\
  inputHasFocus (completeInput KeyEnter typedNsStaging).
Proof.
  assert (H : inputHasFocus typedNsStaging).
  { split; [intros _; vm_compute; discriminate
           | intros _; vm_compute; reflexivity]. }
  split; [exact H|].
  destruct (input_focus_invariant typedNsStaging H) as (_ & E & _).
  exact (E KeyEnter).
Defined.

Lemma refresh_cycle_witness :
  quiescent (showing threeRows) /\
  noCall (view (showing threeRows)) (activeService (showing threeRows))
  = false /\
  exists a',
    run [Tick; Sched 0 (Listed []); Sched 0 (Listed twoRows);
         Sched 0 (Listed []); Draw; Draw] (showing threeRows) = Some a' /\
    quiescent a' /\ rows (table a') = twoRows.
Proof.
  assert (H1 : quiescent (showing threeRows))
    by (vm_compute; repeat split).
  assert (H2 : noCall (view (showing threeRows))
                 (activeService (showing threeRows)) = false)
    by (vm_compute; reflexivity).
  split; [exact H1|]. split; [exact H2|].
  destruct (refresh_cycle (showing threeRows) twoRows H1 H2)
    as (a' & E1 & E2 & E3 & _).
  exists a'. auto.
Defined.

Lemma merged_config_stays_valid_witness :
  ConfigFile.Validate present public = None /\
  (Config.PrivateKeyPath flags <> "" ->
   present (Config.PrivateKeyPath flags) = None) /\
  ConfigFile.Validate present (Config.MergeOverrides public flags) = None.
Proof.
  assert (H1 : ConfigFile.Validate present public = None) by reflexivity.
  assert (H2 : Config.PrivateKeyPath flags <> "" ->
               present (Config.PrivateKeyPath flags) = None)
    by (intros _; reflexivity).
  split; [exact H1|]. split; [exact H2|].
  exact (merged_config_stays_valid present public flags H1 H2).
Defined.

Lemma loadEnvOverrides_keeps_set_witness :
  Os.LookupEnv shellEnv "SNOWFLAKE_USER" = Some "shelluser" /\
  "shelluser" <> "" /\
  Os.LookupEnv (ConfigFile.loadEnvOverrides (Some envFile) shellEnv)
    "SNOWFLAKE_USER" = Some "shelluser".
Proof.
  assert (H1 : Os.LookupEnv shellEnv "SNOWFLAKE_USER" = Some "shelluser")
    by reflexivity.
  assert (H2 : "shelluser" <> "") by discriminate.
  split; [exact H1|]. split; [exact H2|].
  exact (loadEnvOverrides_keeps_set (Some envFile) shellEnv
           "SNOWFLAKE_USER" "shelluser" H1 H2).
Defined.


Lemma fallback_first_nonblank_witness :
  Forall (fun x => TrimSpace x = "") [""; "  "] /\
  TrimSpace "PUBLIC" <> "" /\
  Provider.fallback [""; "  "; "PUBLIC"; "OTHER"] = "PUBLIC".
Proof.
  assert (H1 : Forall (fun x => TrimSpace x = "") [""; "  "])
    by (repeat constructor).
  assert (H2 : TrimSpace "PUBLIC" <> "") by (vm_compute; discriminate).
  split; [exact H1|]. split; [exact H2|].
  exact (fallback_first_nonblank [""; "  "] ["OTHER"] "PUBLIC" H1 H2).
Defined.

Lemma mapFromRow_lookup_witness :
  List.NoDup ["NAME"; "STATE"; "AGE"] /\
  ["NAME"; "STATE"; "AGE"] !! 1%nat = Some "STATE" /\
  Detail.mapGet "STATE"
    (Detail.mapFromRow {| Cells := ["pool"; "ACTIVE"] |}
       ["NAME"; "STATE"; "AGE"]) = Some "ACTIVE".
Proof.
  assert (H1 : List.NoDup ["NAME"; "STATE"; "AGE"]).
  { repeat constructor; cbn [List.In]; intuition discriminate. }
  assert (H2 : ["NAME"; "STATE"; "AGE"] !! 1%nat = Some "STATE")
    by reflexivity.
  split; [exact H1|]. split; [exact H2|].
  exact (mapFromRow_lookup {| Cells := ["pool"; "ACTIVE"] |}
           ["NAME"; "STATE"; "AGE"] 1 "STATE" H1 H2).
Defined.


(** An environment file with a comment, a variable that the shell has
    set, one that it has set to nothing and that the file assigns twice:
    the first assignment wins. *)
Example env_file_first_assignment :
  ConfigFile.loadEnvOverrides (Some envFile) shellEnv
  = [("SNOWFLAKE_ACCOUNT", "envfile"); ("SNOWFLAKE_USER", "shelluser")] /\
  ConfigFile.loadEnvOverrides None shellEnv = shellEnv.
Proof. vm_compute. auto. Qed.

(** The detail pane of a pool row. *)
Example pool_detail :
  Detail.formatKeyValues
    (Detail.mapFromRow {| Cells := ["pool"; "ACTIVE"; " "] |}
       ["NAME"; "STATE"; "FAMILY"; "AGE"])
  = "NAME: pool" ++ String "010" "" ++ "STATE: ACTIVE" ++ String "010" "".
Proof. vm_compute. reflexivity. Qed.

End MoreCases.
